(** * fmeval: evaluation utilities and semantic-robustness transforms

    A shallow embedding of
      - [src/fmeval/eval_algorithms/util.py]
      - [src/fmeval/transforms/semantic_robustness_metrics.py]
    together with the properties their documentation states.

    Conventions of the embedding.
      - A Python exception is a value of [exn]; a call that may raise
        returns a [result].
      - Python's [int] and [float] scores are both read as exact rationals
        in canonical form ([Qc]), so that equal numbers are equal values;
        rounding of binary floating point is not modelled.
      - A [dict] whose iteration order is observed is an association list in
        insertion order ([pydict]); a [dict] used only through lookups and
        stores is a [gmap].
      - Calls to external collaborators (the model runner, the HuggingFace
        metric) are recorded in an explicit log; the model runner also
        threads its hidden state through every call.  What [open] does to
        the output file is a parameter, and the text written through the
        file handle is part of the result.
      - Ray's dataset operations are modelled by their documented contract:
        aggregates skip nulls and are [None] when nothing is left to
        aggregate, and the columns of a dataset without a schema are
        [None]. *)

From Stdlib Require Import Ascii String QArith Qcanon Qcabs DecimalString Permutation.
From stdpp Require Import gmap strings list.

Local Open Scope string_scope.
Local Open Scope list_scope.

(** ** Python values *)

Inductive pyval : Type :=
| VNone
| VStr (s : string)
| VNum (q : Qc).

#[global] Instance pyval_eq_dec : EqDecision pyval.
Proof. solve_decision. Defined.

(** ** Exceptions and results *)

Inductive exn : Type :=
| AssertionError
| KeyError (key : pyval)
| MissingKey (transform_name key : string)
| TypeError
| ZeroDivisionError
| OSError (name : string)
| EvalAlgorithmClientError (msg : string)
| EvalAlgorithmInternalError (msg : string).

Inductive result (A : Type) : Type :=
| Ok (a : A)
| Raise (e : exn).
Arguments Ok {A} a.
Arguments Raise {A} e.

#[global] Instance result_ret : MRet result := λ A a, Ok a.
#[global] Instance result_bind : MBind result := λ A B f m,
  match m with
  | Ok a => f a
  | Raise e => Raise e
  end.
#[global] Instance result_fmap : FMap result := λ A B f m,
  match m with
  | Ok a => Ok (f a)
  | Raise e => Raise e
  end.

(** [for x in xs: body x] where the body may raise: the results are
    collected in order and the first exception aborts the loop. *)
Fixpoint for_each {A B} (body : A → result B) (xs : list A) : result (list B) :=
  match xs with
  | [] => Ok []
  | x :: xs' =>
      y ← body x;
      ys ← for_each body xs';
      Ok (y :: ys)
  end.

(** ** Arithmetic on Python values *)

(** [isinstance(v, float) or isinstance(v, int)] *)
Definition is_numeric (v : pyval) : bool :=
  match v with
  | VNum _ => true
  | _ => false
  end.

(** The number held by a value used in arithmetic; a [str] or [None]
    operand makes Python raise [TypeError]. *)
Definition as_number (v : pyval) : result Qc :=
  match v with
  | VNum q => Ok q
  | _ => Raise TypeError
  end.

(** A number that may be missing, as a Python value. *)
Definition optional_number (q : option Qc) : pyval :=
  match q with
  | Some q => VNum q
  | None => VNone
  end.

(** Built-in [sum]: a left fold that starts from [0]. *)
Definition py_sum (xs : list Qc) : Qc := fold_left Qcplus xs 0%Qc.

(** [len(xs)] as a number. *)
Definition py_len {A} (xs : list A) : Qc := Qc_of_Z (Z.of_nat (length xs)).

(** True division [x / y]; a zero divisor raises. *)
Definition py_truediv (x y : Qc) : result Qc :=
  if decide (y = 0%Qc) then Raise ZeroDivisionError else Ok (x / y)%Qc.

(** The textbook arithmetic mean, used to state results: the sum of the
    elements (as a right fold) over their number. *)
Definition Qcsum (xs : list Qc) : Qc := foldr Qcplus 0%Qc xs.
Definition arithmetic_mean (xs : list Qc) : Qc := (Qcsum xs / py_len xs)%Qc.

(** ** Scores *)

Module EvalScore.
Record t : Type := mk { name : string; value : Qc }.

(** The dataclass does not check its fields.  [any] is an instance that
    holds whatever it was built from: the category-level scores take their
    value unchecked from the rows of Ray's aggregate, where a group without
    numbers has [None]. *)
Record any : Type := mk_any { any_name : string; any_value : pyval }.

Definition to_any (score : t) : any := mk_any (name score) (VNum (value score)).
End EvalScore.

Module CategoryScore.
Record t : Type := mk { name : pyval; scores : list EvalScore.any }.
End CategoryScore.

(** ** [generate_mean_delta_score] *)

Definition generate_mean_delta_score
    (original_score : EvalScore.t) (perturbed_input_scores : list EvalScore.t) : result Qc :=
  py_truediv
    (py_sum (map (λ reference_score,
                    Qcabs (EvalScore.value original_score - EvalScore.value reference_score)%Qc)
                 perturbed_input_scores))
    (py_len perturbed_input_scores).

(** * Transforms ([fmeval.transforms.semantic_robustness_metrics]) *)

(** A record flowing through the transforms: [Dict[str, Any]], used through
    lookups and stores only. *)
Abbreviation record := (gmap string pyval).

(** [record[key]] *)
Definition record_getitem (r : record) (key : string) : result pyval :=
  match r !! key with
  | Some v => Ok v
  | None => Raise (KeyError (VStr key))
  end.

(** Modelled from the spec: [fmeval.util.require] is imported by the
    transforms but not part of the sources at hand.  The spec's error
    taxonomy and the unit test [test_wer_init_failure] fix what it does: a
    false condition raises the client error carrying the given message. *)
Definition require (condition : bool) (msg : string) : result unit :=
  if condition then Ok () else Raise (EvalAlgorithmClientError msg).

(** [str(n)] inside an f-string, for a length. *)
Definition str_of_len (n : nat) : string := NilZero.string_of_uint (Nat.to_uint n).

Section Transforms.

(** Text of an error whose class, but not wording, the spec fixes. *)
Variable mean_no_keys_msg : string.

(** The HuggingFace word-error-rate metric, [hf_evaluate.load("wer")]:
    an external function of the two lists it is given. *)
Variable wer_compute : list pyval → list pyval → pyval.

(** Modelled from the spec: the decorator [fmeval.transforms.util.validate_call]
    is missing from the sources.  Spec 4.1: before the transform's own logic
    runs, every declared input key is checked present in the record; if one
    is missing the call fails with [MissingKey(transform_name, missing_key)]
    and the record is left as it was. *)
Definition validate_call {A} (transform_name : string) (input_keys : list string)
    (call : record → result A) (r : record) : result A :=
  match List.find (λ key, bool_decide (r !! key = None)) input_keys with
  | Some key => Raise (MissingKey transform_name key)
  | None => call r
  end.

(** *** Mean *)

Record Mean : Type := mkMean {
  mean_input_keys : list string;
  mean_output_key : string
}.

(** Modelled from the spec: [fmeval.transforms.common.Mean] is missing from
    the sources.  Spec 4.2: given N input keys and one output key, the
    output is the arithmetic mean of the N input values, computed as
    [sum(values)/N]; N = 0 is refused with a configuration error. *)
Definition Mean_init (input_keys : list string) (output_key : string) : result Mean :=
  _ ← require (negb (bool_decide (input_keys = []))) mean_no_keys_msg;
  Ok (mkMean input_keys output_key).

Definition Mean_call (self : Mean) : record → result record :=
  validate_call "Mean" (mean_input_keys self) (λ r,
    values ← for_each (λ key, record_getitem r key ≫= as_number) (mean_input_keys self);
    avg ← py_truediv (py_sum values) (py_len (mean_input_keys self));
    Ok (<[mean_output_key self := VNum avg]> r)).

(** *** BertScoreDissimilarity *)

Record BertScoreDissimilarity : Type := mkBertScoreDissimilarity {
  bert_score_keys : list string;
  bsd_output_key : string
}.

Definition BertScoreDissimilarity_call (self : BertScoreDissimilarity)
    : record → result record :=
  validate_call "BertScoreDissimilarity" (bert_score_keys self) (λ r,
    add_mean_bert_score ← Mean_init (bert_score_keys self) (bsd_output_key self);
    r ← Mean_call add_mean_bert_score r;
    (* record[self.output_key] = 1 - record[self.output_key] *)
    mean ← record_getitem r (bsd_output_key self) ≫= as_number;
    Ok (<[bsd_output_key self := VNum (1 - mean)%Qc]> r)).

(** *** WER *)

Record WER : Type := mkWER {
  prediction_keys : list string;
  reference_keys : list string;
  wer_output_key : string
}.

Definition wer_length_mismatch_msg (prediction_keys reference_keys : list string) : string :=
  "prediction_keys and reference_keys should have the same number of elements. "
  +:+ "prediction_keys has " +:+ str_of_len (length prediction_keys)
  +:+ " elements while reference_keys has "
  +:+ str_of_len (length reference_keys) +:+ " elements.".

(** [WER.__init__].  After the length check the initializer registers
    [prediction_keys + reference_keys] as inputs with duplicates allowed
    and the single output key, which by spec 4.1 cannot fail, stores the
    three arguments and loads the external metric. *)
Definition WER_init (prediction_keys reference_keys : list string) (output_key : string)
    : result WER :=
  _ ← require (Nat.eqb (length prediction_keys) (length reference_keys))
              (wer_length_mismatch_msg prediction_keys reference_keys);
  Ok (mkWER prediction_keys reference_keys output_key).

(** One call of [self.wer.compute(predictions=..., references=...)]. *)
Record wer_invocation : Type := mkInvocation {
  predictions : list pyval;
  references : list pyval
}.

(** [WER.__call__]: the augmented record, and the calls made to the
    external metric, oldest first. *)
Definition WER_call (self : WER) : record → result (record * list wer_invocation) :=
  validate_call "WER" (prediction_keys self ++ reference_keys self) (λ r,
    preds ← for_each (record_getitem r) (prediction_keys self);
    refs ← for_each (record_getitem r) (reference_keys self);
    let wer_metric := wer_compute preds refs in
    Ok (<[wer_output_key self := wer_metric]> r, [mkInvocation preds refs])).

End Transforms.

(** * Evaluation utilities ([fmeval.eval_algorithms.util]) *)

(** ** Dictionaries whose order is observed

    A Python [dict] (or [OrderedDict]) iterates in insertion order; storing
    under an existing key keeps the key's position. *)

Abbreviation pydict K V := (list (K * V)).

Section PyDict.
Context {K V : Type} `{EqDecision K}.

Definition dict_keys (d : pydict K V) : list K := d.*1.
Definition dict_values (d : pydict K V) : list V := d.*2.

(** [key in d] *)
Definition dict_contains (key : K) (d : pydict K V) : bool :=
  bool_decide (key ∈ dict_keys d).

Fixpoint dict_get (key : K) (d : pydict K V) : option V :=
  match d with
  | [] => None
  | (k, v) :: d' => if decide (k = key) then Some v else dict_get key d'
  end.

(** [d[key] = v] *)
Fixpoint dict_set (key : K) (v : V) (d : pydict K V) : pydict K V :=
  match d with
  | [] => [(key, v)]
  | (k, w) :: d' =>
      if decide (k = key) then (k, v) :: d' else (k, w) :: dict_set key v d'
  end.

(** [dict(items)], [OrderedDict(items)] *)
Definition dict_of_items (items : list (K * V)) : pydict K V :=
  foldl (λ d item, dict_set item.1 item.2 d) [] items.

(** The invariant of every Python dictionary: no key occurs twice. *)
Definition dict_wf (d : pydict K V) : Prop := NoDup (dict_keys d).
End PyDict.

(** [row[key]] for a row with string keys. *)
Definition row_getitem (row : pydict string pyval) (key : string) : result pyval :=
  match dict_get key row with
  | Some v => Ok v
  | None => Raise (KeyError (VStr key))
  end.

(** A loop [for x in xs] that updates local state and may raise. *)
Fixpoint for_fold {A S} (body : S → A → result S) (xs : list A) (s : S) : result S :=
  match xs with
  | [] => Ok s
  | x :: xs' => s' ← body s x; for_fold body xs' s'
  end.

(** ** The dataset engine (Ray), as far as the utilities use it *)

Record Dataset : Type := mkDataset {
  ds_columns : option (list string);     (* [dataset.columns()]: [None] without a schema *)
  ds_rows : list (pydict string pyval)   (* [dataset.iter_rows()], materialized *)
}.

(** [name in dataset.columns()]: a dataset whose schema is not known (an
    empty one, say) has [None] for its columns, and [in None] is a
    [TypeError]. *)
Definition columns_contains (name : string) (ds : Dataset) : result bool :=
  match ds_columns ds with
  | Some columns => Ok (bool_decide (name ∈ columns))
  | None => Raise TypeError
  end.

(** [dataset.limit(n)] *)
Definition Dataset_limit (n : nat) (ds : Dataset) : Dataset :=
  mkDataset (ds_columns ds) (take n (ds_rows ds)).

(** A cell as an aggregate reads it: a null is skipped (Ray aggregates with
    [ignore_nulls=True]), text cannot be averaged. *)
Definition as_nullable_number (v : pyval) : result (option Qc) :=
  match v with
  | VNone => Ok None
  | VNum q => Ok (Some q)
  | VStr _ => Raise TypeError
  end.

(** The numbers of one column that an aggregate takes into account, in row
    order. *)
Definition Dataset_numbers (rows : list (pydict string pyval)) (column : string)
    : result (list Qc) :=
  for_each (λ row, row_getitem row column ≫= as_nullable_number) rows
  ≫= λ cells : list (option Qc), Ok (omap id cells).

(** The mean that an aggregate reports: [None] when there is no number to
    average (no rows, or nulls only). *)
Definition mean_of (values : list Qc) : option Qc :=
  match values with
  | [] => None
  | _ => Some (arithmetic_mean values)
  end.

(** [dataset.mean(column)] *)
Definition Dataset_mean (ds : Dataset) (column : string) : result (option Qc) :=
  values ← Dataset_numbers (ds_rows ds) column;
  Ok (mean_of values).

(** The name Ray gives the aggregate column of [groupby(...).mean(column)]. *)
Definition mean_column (column : string) : string := "mean(" +:+ column +:+ ")".

Section Grouping.
(** The engine is free in the order in which it lists distinct values and
    emits groups; the two functions below stand for its choice. *)
Variable unique_order : list pyval → list pyval.
Variable groupby_order : list pyval → list pyval.

(** [dataset.unique(column)] *)
Definition Dataset_unique (ds : Dataset) (column : string) : result (list pyval) :=
  values ← for_each (λ row, row_getitem row column) (ds_rows ds);
  Ok (unique_order (remove_dups values)).

(** The rows of one group. *)
Definition group_rows (ds : Dataset) (key_column : string) (k : pyval)
    : list (pydict string pyval) :=
  filter (λ row, dict_get key_column row = Some k) (ds_rows ds).

(** [dataset.groupby(key_column).mean(column)]: one row per group, holding
    the group's key and the mean of [column] over the group, which is null
    for a group without numbers. *)
Definition Dataset_groupby_mean (ds : Dataset) (key_column column : string)
    : result (list (pydict string pyval)) :=
  keys ← for_each (λ row, row_getitem row key_column) (ds_rows ds);
  for_each (λ k,
      values ← Dataset_numbers (group_rows ds key_column k) column;
      Ok [(key_column, k);
          (mean_column column, optional_number (mean_of values))])
    (groupby_order (remove_dups keys)).
End Grouping.

(** ** Paths and text (CPython's [posixpath] and [str]) *)

(** [s.rfind(c)]: the index of the last occurrence of [c], or [-1]. *)
Fixpoint str_rfind (c : ascii) (s : string) : Z :=
  match s with
  | EmptyString => (-1)%Z
  | String a s' =>
      let i := str_rfind c s' in
      if (0 <=? i)%Z then (i + 1)%Z
      else if Ascii.eqb a c then 0%Z else (-1)%Z
  end.

(** [s[:i]] and [s[i:]] for [0 <= i]. *)
Definition str_upto (i : Z) (s : string) : string := substring 0 (Z.to_nat i) s.
Definition str_from (i : Z) (s : string) : string :=
  substring (Z.to_nat i) (String.length s - Z.to_nat i) s.

(** [s == c * len(s)] *)
Fixpoint str_all (c : ascii) (s : string) : bool :=
  match s with
  | EmptyString => true
  | String a s' => Ascii.eqb a c && str_all c s'
  end.

(** [s.rstrip(c)] *)
Fixpoint str_rstrip (c : ascii) (s : string) : string :=
  match s with
  | EmptyString => EmptyString
  | String a s' =>
      match str_rstrip c s' with
      | EmptyString => if Ascii.eqb a c then EmptyString else String a EmptyString
      | t => String a t
      end
  end.

Definition os_path_dirname (p : string) : string :=
  let i := (str_rfind "/" p + 1)%Z in
  let head := str_upto i p in
  if negb (String.eqb head "") && negb (str_all "/" head)
  then str_rstrip "/" head
  else head.

Definition os_path_basename (p : string) : string :=
  let i := (str_rfind "/" p + 1)%Z in
  str_from i p.

(** [os.path.splitext]: the extension starts at the last dot of the last
    path component, unless only dots precede it there. *)
Definition os_path_splitext (p : string) : string * string :=
  let sepIndex := str_rfind "/" p in
  let dotIndex := str_rfind "." p in
  if (sepIndex <? dotIndex)%Z
     && negb (str_all "." (substring (Z.to_nat (sepIndex + 1))
                                     (Z.to_nat (dotIndex - (sepIndex + 1))) p))
  then (str_upto dotIndex p, str_from dotIndex p)
  else (p, EmptyString).

Definition newline : string := String "010"%char EmptyString.

(** [sep.join(xs)] is [String.concat sep xs]. *)

(** ** JSON objects produced for the output file *)

Inductive json_value : Type :=
| JValue (v : pyval)
| JObjects (objs : list (pydict string pyval)).

(** [eval_score.__dict__] *)
Definition EvalScore_dict (s : EvalScore.t) : pydict string pyval :=
  [("name", VStr (EvalScore.name s)); ("value", VNum (EvalScore.value s))].

Module EvalOutputRecord.
Record t : Type := mk {
  scores : list EvalScore.t;
  dataset_columns : pydict string pyval
}.
End EvalOutputRecord.

(** Modelled from the spec: [fmeval.util.assert_condition] is missing from
    the sources.  Spec 7: a violated internal invariant is an internal
    error, carrying the given message. *)
Definition assert_condition (condition : bool) (msg : string) : result unit :=
  if condition then Ok () else Raise (EvalAlgorithmInternalError msg).

(** Modelled from the spec: the constant [DatasetColumns.CATEGORY.value.name]
    of [fmeval.constants] is missing from the sources; spec 4.4 has the
    category column named [category]. *)
Definition CATEGORY : string := "category".

Section Util.

(** Constants of [fmeval.constants], which is not among the sources. *)
Variable DATASET_COLUMNS : list string.          (* keys of the ordered allow-list *)
Variable MEAN : string.
Variable NUM_ROWS_DETERMINISTIC : nat.
Variable EVAL_OUTPUT_RECORDS_BATCH_SIZE : nat.

(** [json.dumps] *)
Variable json_dumps : pydict string json_value → string.

(** What [open(path, "w")] does in the file system at hand: it returns, the
    file created or emptied, or it raises an [OSError]
    ([FileNotFoundError] for a directory that does not exist, and so on). *)
Variable open_w : string → result unit.

(** *** [EvalOutputRecord] *)

(** The dataclass constructor followed by [__post_init__]. *)
Definition EvalOutputRecord_init (scores : list EvalScore.t)
    (dataset_columns : pydict string pyval) : result EvalOutputRecord.t :=
  _ ← for_each (λ col,
          assert_condition (bool_decide (col ∈ DATASET_COLUMNS))
            ("Attempting to initialize an EvalOutputRecord with invalid non-score column "
             +:+ col +:+ "."))
        (dict_keys dataset_columns);
  Ok (EvalOutputRecord.mk scores dataset_columns).

(** The generator expression
    [(col_name, dataset_columns[col_name]) for col_name in names
     if col_name in dataset_columns]. *)
Definition recognized_items (dataset_columns : pydict string pyval)
    (names : list string) : list (string * json_value) :=
  omap (λ col_name,
          if dict_contains col_name dataset_columns
          then (λ v, (col_name, JValue v)) <$> dict_get col_name dataset_columns
          else None)
       names.

Definition _to_dict (self : EvalOutputRecord.t) : pydict string json_value :=
  let json_obj :=
    dict_of_items
      (recognized_items (EvalOutputRecord.dataset_columns self) DATASET_COLUMNS) in
  dict_set "scores" (JObjects (map EvalScore_dict (EvalOutputRecord.scores self))) json_obj.


(** One turn of the loop of [from_row]; the state is
    [(dataset_columns, scores)]. *)
Definition from_row_body (score_names : list string)
    (st : pydict string pyval * list EvalScore.t) (item : string * pyval)
    : result (pydict string pyval * list EvalScore.t) :=
  let '(dataset_columns, scores) := st in
  let '(column_name, value) := item in
  if negb (bool_decide (column_name ∈ score_names)) then
    if bool_decide (column_name ∈ DATASET_COLUMNS)
    then Ok (dict_set column_name value dataset_columns, scores)
    else Ok (dataset_columns, scores)
  else
    match value with
    | VNum q => Ok (dataset_columns, scores ++ [EvalScore.mk column_name q])
    | _ => Raise AssertionError
    end.

Definition from_row (row : pydict string pyval) (score_names : list string)
    : result EvalOutputRecord.t :=
  st ← for_fold (from_row_body score_names) row ([], []);
  EvalOutputRecord_init st.2 st.1.

(** *** [save_dataset] *)

Definition jsonl_path (path : string) : string :=
  let path_to_parent_dir := os_path_dirname path in
  let file_name := os_path_basename path in
  let file_name_without_extension := (os_path_splitext file_name).1 in
  path_to_parent_dir +:+ "/" +:+ file_name_without_extension +:+ ".jsonl".

(** The loop over the rows: [records] is the pending batch, [fh] what has
    been written to the file so far. *)
Fixpoint write_batches (rows : list string) (records : list string) (fh : string)
    : list string * string :=
  match rows with
  | [] => (records, fh)
  | record :: rows' =>
      let records := records ++ [record] in
      if Nat.eqb (length records) EVAL_OUTPUT_RECORDS_BATCH_SIZE
      then write_batches rows' [] (fh +:+ (String.concat newline records +:+ newline))
      else write_batches rows' records fh
  end.

(** Everything written between [open] and the end of the [with] block. *)
Definition write_records (rows : list string) : string :=
  let '(records, fh) := write_batches rows [] "" in
  match records with
  | [] => fh
  | _ => fh +:+ String.concat newline records
  end.


(** *** [verify_model_determinism] *)

Section ModelRunner.
(** A model runner: [predict] may depend on, and change, hidden state. *)
Variable model_state : Type.
Variable predict :
  model_state → pyval → (option string * option Qc) * model_state.

(** The loop over the rows; [calls] logs the prompts sent to the model. *)
Fixpoint verify_rows (prompt_column_name : string) (rows : list (pydict string pyval))
    (model : model_state) (calls : list pyval)
    : result (bool * list pyval * model_state) :=
  match rows with
  | [] => Ok (true, calls, model)
  | row :: rows' =>
      original_prompt ← row_getitem row prompt_column_name;
      let '(out1, model) := predict model original_prompt in
      let original_model_output := out1.1 in
      let '(out2, model) := predict model original_prompt in
      let calls := calls ++ [original_prompt; original_prompt] in
      if negb (bool_decide (out2.1 = original_model_output))
      then Ok (false, calls, model)
      else verify_rows prompt_column_name rows' model calls
  end.

Definition verify_model_determinism (model : model_state) (dataset : Dataset)
    (prompt_column_name : string) : result (bool * list pyval * model_state) :=
  verify_rows prompt_column_name
    (ds_rows (Dataset_limit NUM_ROWS_DETERMINISTIC dataset)) model [].
End ModelRunner.

(** *** [aggregate_evaluation_scores] *)

Section Aggregation.
Variable unique_order : list pyval → list pyval.
Variable groupby_order : list pyval → list pyval.

Definition unsupported_msg (agg_method : string) : string :=
  "Aggregation method " +:+ agg_method +:+ " is not supported".

Definition dataset_aggregation (dataset : Dataset) (score_column_name agg_method : string)
    : result Qc :=
  if String.eqb agg_method MEAN then
    aggregate ← Dataset_mean dataset score_column_name;
    match aggregate with
    | Some a => Ok a
    | None => Raise AssertionError      (* [assert isinstance(aggregate, float)] *)
    end
  else Raise (EvalAlgorithmInternalError (unsupported_msg agg_method)).

Definition category_wise_aggregation (dataset : Dataset)
    (score_column_name agg_method : string) : result (list (pydict string pyval)) :=
  if String.eqb agg_method MEAN
  then Dataset_groupby_mean groupby_order dataset CATEGORY score_column_name
  else Raise (EvalAlgorithmInternalError (unsupported_msg agg_method)).

(** [category_scores[row[CATEGORY]].scores.append(EvalScore(...))] *)
Definition append_category_score (score_column_name : string)
    (category_scores : pydict pyval CategoryScore.t) (row : pydict string pyval)
    : result (pydict pyval CategoryScore.t) :=
  category ← row_getitem row CATEGORY;
  match dict_get category category_scores with
  | None => Raise (KeyError category)
  | Some entry =>
      value ← row_getitem row (mean_column score_column_name);
      Ok (dict_set category
            (CategoryScore.mk (CategoryScore.name entry)
               (CategoryScore.scores entry ++ [EvalScore.mk_any score_column_name value]))
            category_scores)
  end.

Definition aggregate_evaluation_scores (dataset : Dataset)
    (score_column_names : list string) (agg_method : string)
    : result (list EvalScore.t * option (list CategoryScore.t)) :=
  dataset_scores ←
    for_each (λ score_column_name,
                EvalScore.mk score_column_name
                  <$> dataset_aggregation dataset score_column_name agg_method)
             score_column_names;
  has_category ← columns_contains CATEGORY dataset;
  category_scores ←
    (if has_category : bool then
       names ← Dataset_unique unique_order dataset CATEGORY;
       let category_scores :=
         dict_of_items (map (λ name, (name, CategoryScore.mk name [])) names) in
       Some <$>
         for_fold (λ category_scores score_column_name,
             category_aggregate ←
               category_wise_aggregation dataset score_column_name agg_method;
             for_fold (append_category_score score_column_name)
                      category_aggregate category_scores)
           score_column_names category_scores
     else Ok None);
  Ok (dataset_scores,
      match category_scores with
      | Some ((_ :: _) as d) => Some (dict_values d)
      | _ => None
      end).
End Aggregation.

End Util.

(** ** Statements compared with the code *)

(** What it means for [from_row] to partition a row: a record is produced;
    its scores, read back as (name, value) items, are the items of the row
    whose key is a score name, in row order; and its dataset columns are the
    items of the row whose key is no score name but is on the allow-list.
    Every other key of the row is therefore in neither part. *)
Definition from_row_partitions (DATASET_COLUMNS : list string)
    (row : pydict string pyval) (score_names : list string) : Prop :=
  ∃ rec : EvalOutputRecord.t,
    from_row DATASET_COLUMNS row score_names = Ok rec ∧
    map (λ s, (EvalScore.name s, VNum (EvalScore.value s))) (EvalOutputRecord.scores rec)
      = filter (λ item, item.1 ∈ score_names) row ∧
    EvalOutputRecord.dataset_columns rec
      = filter (λ item, (item.1 ∉ score_names) ∧ (item.1 ∈ DATASET_COLUMNS)) row.

Section DeterminismStatement.
Variable model_state : Type.
Variable predict :
  model_state → pyval → (option string * option Qc) * model_state.

(** The pairs of outputs the model gives when every prompt of a list is
    sent to it twice in a row, prompt after prompt, none skipped. *)
Fixpoint ask_twice (model : model_state) (prompts : list pyval)
    : list (option string * option string) :=
  match prompts with
  | [] => []
  | prompt :: prompts' =>
      let '(out1, model) := predict model prompt in
      let '(out2, model) := predict model prompt in
      (out1.1, out2.1) :: ask_twice model prompts'
  end.

(** The state in which the model is left by one call for each prompt of a
    list, in order, and by no other call. *)
Definition after_calls (model : model_state) (prompts : list pyval) : model_state :=
  fold_left (λ model prompt, (predict model prompt).2) prompts model.
End DeterminismStatement.

(** Each prompt of a list, twice. *)
Definition each_twice (prompts : list pyval) : list pyval :=
  flat_map (λ prompt, [prompt; prompt]) prompts.

(** The line terminator that follows the last record in the file written
    by [save_dataset] for [n] records and batch size [batch]: present
    exactly when a completed batch was the last thing written. *)
Definition trailing_newline (batch n : nat) : string :=
  if (0 <? n)%nat && (n mod batch =? 0)%nat then newline else "".

(** The numbers that a column holds, row by row. *)
Definition has_number (column : string) (row : pydict string pyval) : bool :=
  match dict_get column row with
  | Some (VNum _) => true
  | _ => false
  end.

Definition numbers_of (column : string) (rows : list (pydict string pyval)) : list Qc :=
  omap (λ row, match dict_get column row with
               | Some (VNum q) => Some q
               | _ => None
               end) rows.

(** The values of a column, row by row. *)
Definition values_of (column : string) (rows : list (pydict string pyval)) : list pyval :=
  omap (dict_get column) rows.

(** The mean score of a column: over the whole dataset, and over one
    category. *)
Definition mean_score (rows : list (pydict string pyval)) (column : string) : EvalScore.t :=
  EvalScore.mk column (arithmetic_mean (numbers_of column rows)).

Definition category_mean_score (dataset : Dataset) (category : pyval) (column : string)
    : EvalScore.any :=
  EvalScore.to_any
    (mean_score (filter (λ row, dict_get CATEGORY row = Some category) (ds_rows dataset))
                column).

Definition category_mean_scores (dataset : Dataset) (score_column_names : list string)
    (category : pyval) : CategoryScore.t :=
  CategoryScore.mk category (map (category_mean_score dataset category) score_column_names).

(** The row that [groupby(CATEGORY).mean(column)] yields for one category. *)
Definition category_mean_row (dataset : Dataset) (column : string) (category : pyval)
    : pydict string pyval :=
  [(CATEGORY, category);
   (mean_column column,
    VNum (arithmetic_mean (numbers_of column (group_rows dataset CATEGORY category))))].

(** The dictionary [category_scores] while the column [column] is being
    added: the columns [finished] are in every entry, and [column] is in
    the entries of the categories [seen] so far. *)
Definition category_scores_during (dataset : Dataset) (finished : list string)
    (column : string) (seen : list pyval) (categories : list pyval)
    : pydict pyval CategoryScore.t :=
  map (λ category,
         (category,
          CategoryScore.mk category
            (map (category_mean_score dataset category) finished
             ++ (if decide (category ∈ seen)
                 then [category_mean_score dataset category column]
                 else []))))
      categories.

(** The same dictionary between two columns. *)
Definition category_scores_after (dataset : Dataset) (finished : list string)
    (categories : list pyval) : pydict pyval CategoryScore.t :=
  map (λ category, (category, category_mean_scores dataset finished category)) categories.

(** * Further functions of [fmeval.eval_algorithms.util] *)

(** ** [validate_dataset] *)

Definition missing_column_msg (column_name : string) : string :=
  "Missing required column: " +:+ column_name +:+ ", for evaluate() method".

Definition validate_dataset (dataset : Dataset) (column_names : list string) : result unit :=
  _ ← for_each (λ column_name,
          present ← columns_contains column_name dataset;
          require present (missing_column_msg column_name))
        column_names;
  Ok ().

(** ** [generate_output_dataset_path] *)

(** [s.startswith(c)] and [s.endswith(c)] for a one-character [c]. *)
Definition str_startswith (c : ascii) (s : string) : bool :=
  match s with
  | String a _ => Ascii.eqb a c
  | EmptyString => false
  end.

Fixpoint str_endswith (c : ascii) (s : string) : bool :=
  match s with
  | EmptyString => false
  | String a EmptyString => Ascii.eqb a c
  | String _ s' => str_endswith c s'
  end.

(** [os.path.join(a, b)] of CPython's [posixpath]. *)
Definition os_path_join (a b : string) : string :=
  if str_startswith "/" b then b
  else if String.eqb a "" || str_endswith "/" a then a +:+ b
  else a +:+ "/" +:+ b.

Definition generate_output_dataset_path (path_to_parent_dir eval_name dataset_name : string)
    : string :=
  os_path_join path_to_parent_dir (eval_name +:+ "_" +:+ dataset_name +:+ ".jsonl").

(** ** Prompts and inference, row by row *)

(** Truth value of an [Optional[str]] column name: [None] and the empty
    string are false. *)
Definition truthy_name (name : option string) : option string :=
  match name with
  | Some EmptyString => None
  | _ => name
  end.

(** The two components of [predict]'s answer, as row values. *)
Definition output_value (output : option string) : pyval :=
  match output with
  | Some s => VStr s
  | None => VNone
  end.

Definition log_probability_value (log_probability : option Qc) : pyval :=
  match log_probability with
  | Some q => VNum q
  | None => VNone
  end.

Section Inference.
Variable model_state : Type.
Variable predict :
  model_state → pyval → (option string * option Qc) * model_state.

(** [ModelRunnerWrapper.__call__], the map function of
    [generate_model_predict_response_for_dataset], on the model held by one
    actor. *)
Definition ModelRunnerWrapper_call (model_input_column_name : string)
    (model_output_column_name model_log_probability_column_name : option string)
    (model_runner : model_state) (row : pydict string pyval)
    : result (pydict string pyval * model_state) :=
  prompt ← row_getitem row model_input_column_name;
  let '(predict_output, model_runner) := predict model_runner prompt in
  let row :=
    match truthy_name model_output_column_name with
    | Some name => dict_set name (output_value predict_output.1) row
    | None => row
    end in
  let row :=
    match truthy_name model_log_probability_column_name with
    | Some name => dict_set name (log_probability_value predict_output.2) row
    | None => row
    end in
  Ok (row, model_runner).
End Inference.

Section Prompts.
(** [PromptComposer(prompt_template).compose], which is not among the sources. *)
Variable compose : string → pyval → result pyval.

(** [_generate_prompt_column], the map function of
    [generate_prompt_column_for_dataset]. *)
Definition _generate_prompt_column (prompt_template : string)
    (model_input_column_name prompt_column_name : string)
    (row : pydict string pyval) : result (pydict string pyval) :=
  model_input ← row_getitem row model_input_column_name;
  prompt ← compose prompt_template model_input;
  Ok (dict_set prompt_column_name prompt row).

(** The rows of the dataset that [generate_prompt_column_for_dataset]
    returns, in the order of the rows of [data]. *)
Definition generate_prompt_column_for_dataset (prompt_template : string)
    (data : Dataset) (model_input_column_name prompt_column_name : string)
    : result (list (pydict string pyval)) :=
  for_each (_generate_prompt_column prompt_template
              model_input_column_name prompt_column_name)
           (ds_rows data).
End Prompts.

(** What the loop of [from_row] keeps true of its state
    [(dataset_columns, scores)]. *)
Definition from_row_state_ok (DATASET_COLUMNS score_names : list string)
    (st : pydict string pyval * list EvalScore.t) : Prop :=
  Forall (λ col, col ∈ DATASET_COLUMNS ∧ (col ∉ score_names)) (dict_keys st.1) ∧
  dict_wf st.1 ∧
  Forall (λ s, EvalScore.name s ∈ score_names) st.2.

(** ** Sample data

    The rows and records of the docstrings and unit tests, used below to
    instantiate the theorems. *)

Definition example_columns : list string :=
  ["model_input"; "model_output"; "target_output"; "category"].

Definition example_row : pydict string pyval :=
  [("model_input", VStr "hello"); ("aux", VNum (Q2Qc 0.189));
   ("rouge", VNum (Q2Qc 0.5)); ("bert_score", VNum (Q2Qc 0.42))].

Definition example_wer_record : record :=
  list_to_map [("p1", VStr "a"); ("p2", VStr "b"); ("p3", VStr "c");
               ("r1", VStr "d"); ("r2", VStr "e"); ("r3", VStr "f")].

Definition example_wer_metric (predictions references : list pyval) : pyval :=
  VNum (Q2Qc 0.123).

Definition example_output_record : EvalOutputRecord.t :=
  EvalOutputRecord.mk
    [EvalScore.mk "rouge" (Q2Qc 0.5)]
    [("category", VStr "news"); ("model_input", VStr "hello")].

(** A model that answers ["x"] to its first three calls and ["y"] from
    then on: the second row gets two different answers. *)
Definition example_predict (calls_so_far : nat) (prompt : pyval)
    : (option string * option Qc) * nat :=
  ((Some (if (calls_so_far <? 3)%nat then "x" else "y"), None), S calls_so_far).

Definition example_prompt_dataset : Dataset :=
  mkDataset (Some ["prompt"])
    [[("prompt", VStr "p1")]; [("prompt", VStr "p2")]; [("prompt", VStr "p3")];
     [("prompt", VStr "p4")]].

Definition example_scored_dataset : Dataset :=
  mkDataset (Some ["model_input"; "category"; "rouge"])
    [[("model_input", VStr "x"); ("category", VStr "a"); ("rouge", VNum (Q2Qc 0.5))];
     [("model_input", VStr "y"); ("category", VStr "b"); ("rouge", VNum (Q2Qc 1))];
     [("model_input", VStr "z"); ("category", VStr "a"); ("rouge", VNum (Q2Qc 1.5))]].

(** A model that always answers ["x"], and a composer that wraps the model
    input in the template. *)
Definition example_constant_predict (calls_so_far : nat) (prompt : pyval)
    : (option string * option Qc) * nat :=
  ((Some "x", Some (Q2Qc (-1))), S calls_so_far).

Definition example_compose (prompt_template : string) (model_input : pyval) : result pyval :=
  match model_input with
  | VStr s => Ok (VStr (prompt_template +:+ s))
  | _ => Raise TypeError
  end.



(** * Properties *)

(** ** Arithmetic helpers *)

Lemma fold_left_Qcplus_acc (xs : list Qc) (a : Qc) :
  fold_left Qcplus xs a = (a + Qcsum xs)%Qc.
Proof.
  revert a. induction xs as [|x xs IH]; intros a; simpl.
  - ring.
  - rewrite IH. ring.
Qed.

Lemma py_sum_Qcsum (xs : list Qc) : py_sum xs = Qcsum xs.
Proof. unfold py_sum. rewrite fold_left_Qcplus_acc. ring. Qed.

Lemma py_len_pos {A} (xs : list A) : xs ≠ [] → (0 < py_len xs)%Qc.
Proof.
  destruct xs as [|x xs]; [done|]. intros _.
  unfold py_len. rewrite <- Z2Qc_inj_0.
  apply (proj1 (Z2Qc_inj_lt 0 _)). rewrite length_cons. lia.
Qed.

Lemma py_len_nonzero {A} (xs : list A) : xs ≠ [] → py_len xs ≠ 0%Qc.
Proof.
  intros Hne Hz. pose proof (py_len_pos xs Hne) as Hpos.
  rewrite Hz in Hpos. by apply Qclt_not_eq in Hpos.
Qed.

Lemma py_truediv_len {A} (x : Qc) (xs : list A) :
  xs ≠ [] → py_truediv x (py_len xs) = Ok (x / py_len xs)%Qc.
Proof.
  intros Hne. unfold py_truediv.
  destruct (decide (py_len xs = 0%Qc)) as [E|]; [|done].
  by apply py_len_nonzero in E.
Qed.

(** C10. For a non-empty list of perturbed scores the helper returns the
    arithmetic mean of the absolute differences [|original - perturbed_i|];
    for the empty list it raises [ZeroDivisionError] and returns nothing. *)
Theorem generate_mean_delta_score_spec
    (original_score : EvalScore.t) (perturbed_input_scores : list EvalScore.t) :
  (perturbed_input_scores ≠ [] →
     generate_mean_delta_score original_score perturbed_input_scores
       = Ok (arithmetic_mean
               (map (λ p, Qcabs (EvalScore.value original_score - EvalScore.value p)%Qc)
                    perturbed_input_scores))) ∧
  (perturbed_input_scores = [] →
     generate_mean_delta_score original_score perturbed_input_scores
       = Raise ZeroDivisionError).
Proof.
  split.
  - intros Hne. unfold generate_mean_delta_score.
    rewrite py_truediv_len by done.
    unfold arithmetic_mean. rewrite py_sum_Qcsum.
    unfold py_len. by rewrite length_map.
  - intros ->. reflexivity.
Qed.

(** ** Loops that do not raise *)

Lemma bind_Ok {A B} (a : A) (f : A → result B) : Ok a ≫= f = f a.
Proof. reflexivity. Qed.

Lemma for_each_Ok {A B} (body : A → result B) (xs : list A) (ys : list B) :
  Forall2 (λ x y, body x = Ok y) xs ys → for_each body xs = Ok ys.
Proof.
  induction 1 as [|x y xs ys Hx _ IH]; [done|].
  cbn [for_each]. by rewrite Hx, IH.
Qed.

Lemma for_each_length {A B} (body : A → result B) (xs : list A) (ys : list B) :
  for_each body xs = Ok ys → length ys = length xs.
Proof.
  revert ys. induction xs as [|x xs IH]; intros ys; cbn [for_each].
  - by intros [= <-].
  - destruct (body x) as [y|]; [|done]. cbn.
    destruct (for_each body xs) as [ys'|]; [|done]. cbn.
    intros [= <-]. cbn. f_equal. by apply IH.
Qed.

(** ** Transforms *)

Section TransformFacts.
Variable mean_no_keys_msg : string.
Variable wer_compute : list pyval → list pyval → pyval.

Lemma validate_call_present {A} (name : string) (keys : list string)
    (call : record → result A) (r : record) :
  Forall (λ key, is_Some (r !! key)) keys →
  validate_call name keys call r = call r.
Proof.
  intros Hall. unfold validate_call.
  replace (List.find (λ key, bool_decide (r !! key = None)) keys) with (@None string);
    [done|].
  induction Hall as [|key keys [v Hv] _ IH]; [done|].
  cbn [List.find]. rewrite bool_decide_eq_false_2 by (rewrite Hv; done). exact IH.
Qed.

Lemma validate_call_missing {A} (name : string) (keys : list string)
    (call : record → result A) (r : record) (key : string) :
  key ∈ keys → r !! key = None →
  ∃ missing, missing ∈ keys ∧ r !! missing = None ∧
             validate_call name keys call r = Raise (MissingKey name missing).
Proof.
  intros Hin Hnone. unfold validate_call.
  destruct (List.find _ keys) as [k|] eqn:Hfind.
  - apply find_some in Hfind as [Hk Hb%bool_decide_eq_true].
    exists k. by rewrite <- list_elem_of_In in Hk.
  - apply list_elem_of_In in Hin.
    pose proof (find_none _ _ Hfind _ Hin) as Hb.
    apply bool_decide_eq_false in Hb. done.
Qed.

Lemma getitem_values (r : record) (keys : list string) (vs : list pyval) :
  Forall2 (λ key v, r !! key = Some v) keys vs →
  for_each (record_getitem r) keys = Ok vs.
Proof.
  intros H. apply for_each_Ok. eapply Forall2_impl; [exact H|].
  intros key v Hv. unfold record_getitem. by rewrite Hv.
Qed.

Lemma getitem_numbers (r : record) (keys : list string) (qs : list Qc) :
  Forall2 (λ key q, r !! key = Some (VNum q)) keys qs →
  for_each (λ key, record_getitem r key ≫= as_number) keys = Ok qs.
Proof.
  intros H. apply for_each_Ok. eapply Forall2_impl; [exact H|].
  intros key q Hq. unfold record_getitem. by rewrite Hq.
Qed.

Lemma Forall2_present {V} (r : record) (keys : list string) (vs : list V)
    (f : V → pyval) :
  Forall2 (λ key v, r !! key = Some (f v)) keys vs →
  Forall (λ key, is_Some (r !! key)) keys.
Proof.
  induction 1 as [|key v keys vs Hv _ IH]; constructor; [by eexists|done].
Qed.

(** C4. A WER transform cannot be built from key lists of different
    lengths: the initializer raises the client (configuration) error whose
    message spells out both lengths -- for lengths 2 and 3 exactly the
    documented text -- and it succeeds when the lengths agree. *)
Theorem WER_init_spec (prediction_keys reference_keys : list string)
    (output_key : string) :
  (length prediction_keys ≠ length reference_keys →
     WER_init prediction_keys reference_keys output_key
     = Raise (EvalAlgorithmClientError
         ("prediction_keys and reference_keys should have the same number of elements. "
          +:+ "prediction_keys has " +:+ str_of_len (length prediction_keys)
          +:+ " elements while reference_keys has "
          +:+ str_of_len (length reference_keys) +:+ " elements."))) ∧
  (length prediction_keys = 2 → length reference_keys = 3 →
     WER_init prediction_keys reference_keys output_key
     = Raise (EvalAlgorithmClientError
         "prediction_keys and reference_keys should have the same number of elements. prediction_keys has 2 elements while reference_keys has 3 elements.")) ∧
  (length prediction_keys = length reference_keys →
     WER_init prediction_keys reference_keys output_key
     = Ok (mkWER prediction_keys reference_keys output_key)).
Proof.
  unfold WER_init, wer_length_mismatch_msg. split; [|split].
  - intros Hne. apply Nat.eqb_neq in Hne. by rewrite Hne.
  - intros -> ->. reflexivity.
  - intros Heq. apply Nat.eqb_eq in Heq. by rewrite Heq.
Qed.

(** C5. On a record that holds every declared key, a WER transform asks
    the external metric once, with the prediction values in the order of
    [prediction_keys] and the reference values in the order of
    [reference_keys] (so position k of one list faces position k of the
    other); what the metric returns is stored as is under the output key
    and no other key changes. *)
Theorem WER_call_spec (self : WER) (r : record) (preds refs : list pyval) :
  Forall2 (λ key v, r !! key = Some v) (prediction_keys self) preds →
  Forall2 (λ key v, r !! key = Some v) (reference_keys self) refs →
  ∃ r' : record,
    WER_call wer_compute self r = Ok (r', [mkInvocation preds refs]) ∧
    r' !! wer_output_key self = Some (wer_compute preds refs) ∧
    (∀ key, key ≠ wer_output_key self → r' !! key = r !! key) ∧
    (∀ k pk rk, prediction_keys self !! k = Some pk →
                reference_keys self !! k = Some rk →
                preds !! k = r !! pk ∧ refs !! k = r !! rk).
Proof.
  intros Hp Hr.
  exists (<[wer_output_key self := wer_compute preds refs]> r).
  split; [|split; [|split]].
  - unfold WER_call. rewrite validate_call_present.
    + rewrite (getitem_values _ _ _ Hp), (getitem_values _ _ _ Hr). reflexivity.
    + apply Forall_app. split.
      * apply (Forall2_present r _ preds id Hp).
      * apply (Forall2_present r _ refs id Hr).
  - apply lookup_insert_eq.
  - intros key Hkey. by apply lookup_insert_ne.
  - intros k pk rk Hpk Hrk. split.
    + destruct (Forall2_lookup_l _ _ _ _ _ Hp Hpk) as (v & -> & Hv). by rewrite Hv.
    + destruct (Forall2_lookup_l _ _ _ _ _ Hr Hrk) as (v & -> & Hv). by rewrite Hv.
Qed.

End TransformFacts.

(** ** Bounds on the arithmetic mean *)

Lemma py_len_cons {A} (x : A) (xs : list A) : py_len (x :: xs) = (1 + py_len xs)%Qc.
Proof.
  unfold py_len. rewrite length_cons, Nat2Z.inj_succ, <- Z.add_1_l.
  by rewrite Z2Qc_inj_add, Z2Qc_inj_1.
Qed.

Lemma py_len_nil {A} : py_len (@nil A) = 0%Qc.
Proof. exact Z2Qc_inj_0. Qed.



Lemma arithmetic_mean_times_len (xs : list Qc) :
  xs ≠ [] → (arithmetic_mean xs * py_len xs)%Qc = Qcsum xs.
Proof.
  intros Hne. unfold arithmetic_mean. field. by apply py_len_nonzero.
Qed.





Section BertScoreFacts.
Variable mean_no_keys_msg : string.

Lemma Mean_call_numbers (self : Mean) (r : record) (values : list Qc) :
  mean_input_keys self ≠ [] →
  Forall2 (λ key q, r !! key = Some (VNum q)) (mean_input_keys self) values →
  Mean_call self r = Ok (<[mean_output_key self := VNum (arithmetic_mean values)]> r).
Proof.
  intros Hne Hvals. unfold Mean_call.
  rewrite validate_call_present by exact (Forall2_present r _ values VNum Hvals).
  rewrite (getitem_numbers _ _ _ Hvals). cbn.
  rewrite py_truediv_len by done. cbn.
  unfold arithmetic_mean. rewrite py_sum_Qcsum.
  unfold py_len. by rewrite (Forall2_length _ _ _ Hvals).
Qed.


End BertScoreFacts.

(** ** Ordered dictionaries *)

Section PyDictFacts.
Context {K V : Type} `{EqDecision K}.
Implicit Types (d : pydict K V) (key : K) (v : V).

Lemma dict_set_fresh key v d :
  key ∉ dict_keys d → dict_set key v d = d ++ [(key, v)].
Proof.
  induction d as [|[k w] d IH]; cbn; [done|].
  intros Hnotin. apply not_elem_of_cons in Hnotin as [Hne Hnotin].
  rewrite decide_False by done. by rewrite IH.
Qed.

Lemma dict_keys_app d1 d2 : dict_keys (d1 ++ d2) = dict_keys d1 ++ dict_keys d2.
Proof. apply fmap_app. Qed.

Lemma dict_of_items_acc (items : list (K * V)) d :
  NoDup (dict_keys d ++ items.*1) →
  foldl (λ d item, dict_set item.1 item.2 d) d items = d ++ items.
Proof.
  revert d. induction items as [|[k v] items IH]; intros d Hnd; cbn.
  - by rewrite app_nil_r.
  - cbn in Hnd. rewrite dict_set_fresh.
    + rewrite IH.
      * by rewrite <- app_assoc.
      * rewrite dict_keys_app. cbn. by rewrite <- app_assoc.
    + apply NoDup_app in Hnd as (_ & Hdisj & _).
      intros Hin. apply (Hdisj k Hin). left.
Qed.

Lemma dict_of_items_NoDup (items : list (K * V)) :
  NoDup items.*1 → dict_of_items items = items.
Proof. intros Hnd. unfold dict_of_items. by rewrite dict_of_items_acc. Qed.

Lemma dict_get_Some_elem key v d :
  dict_wf d → dict_get key d = Some v ↔ (key, v) ∈ d.
Proof.
  unfold dict_wf. induction d as [|[k w] d IH]; cbn.
  - intros _. split; [done|]. by intros ?%elem_of_nil.
  - intros [Hk Hnd]%NoDup_cons. destruct (decide (k = key)) as [->|Hne].
    + split.
      * intros [= ->]. left.
      * intros [[= ->]|Hin]%elem_of_cons; [done|].
        exfalso. apply Hk. by apply (list_elem_of_fmap_2 fst) in Hin.
    + rewrite IH by done. split.
      * by right.
      * intros [[= ? ?]|Hin]%elem_of_cons; [congruence|done].
Qed.

Lemma dict_get_None key d : dict_get key d = None ↔ key ∉ dict_keys d.
Proof.
  induction d as [|[k w] d IH]; cbn.
  - split; [intros _; apply not_elem_of_nil|done].
  - destruct (decide (k = key)) as [->|Hne].
    + split; [done|]. intros Hnotin. exfalso. apply Hnotin. left.
    + rewrite IH, not_elem_of_cons. split; [by split|by intros [_ ?]].
Qed.

Lemma dict_get_snoc_ne key k v d :
  k ≠ key → dict_get key (d ++ [(k, v)]) = dict_get key d.
Proof.
  intros Hne. induction d as [|[k' w] d IH]; cbn [app dict_get].
  - by rewrite decide_False.
  - by rewrite IH.
Qed.

Lemma dict_get_Permutation key d d' :
  dict_wf d → d ≡ₚ d' → dict_get key d = dict_get key d'.
Proof.
  intros Hwf Hperm.
  assert (dict_wf d') as Hwf'.
  { unfold dict_wf, dict_keys in *. by rewrite <- Hperm. }
  destruct (dict_get key d) as [v|] eqn:Hd.
  - symmetry. apply dict_get_Some_elem; [done|]. rewrite <- Hperm.
    by apply dict_get_Some_elem.
  - symmetry. apply dict_get_None. apply dict_get_None in Hd.
    unfold dict_keys in *. by rewrite <- Hperm.
Qed.
End PyDictFacts.

(** ** [EvalOutputRecord] *)

Section RecordFacts.
Variable DATASET_COLUMNS : list string.

Lemma EvalOutputRecord_init_allowed (scores : list EvalScore.t)
    (cols : pydict string pyval) :
  Forall (λ col, col ∈ DATASET_COLUMNS) (dict_keys cols) →
  EvalOutputRecord_init DATASET_COLUMNS scores cols
    = Ok (EvalOutputRecord.mk scores cols).
Proof.
  intros Hall. unfold EvalOutputRecord_init.
  rewrite (for_each_Ok _ _ (map (λ _, ()) (dict_keys cols))); [done|].
  induction Hall as [|col cols' Hcol _ IH]; constructor; [|done].
  unfold assert_condition. by rewrite bool_decide_eq_true_2.
Qed.

Lemma EvalOutputRecord_init_rejected (scores : list EvalScore.t)
    (cols : pydict string pyval) (rec : EvalOutputRecord.t) :
  EvalOutputRecord_init DATASET_COLUMNS scores cols = Ok rec →
  rec = EvalOutputRecord.mk scores cols ∧
  Forall (λ col, col ∈ DATASET_COLUMNS) (dict_keys cols).
Proof.
  unfold EvalOutputRecord_init.
  destruct (for_each _ (dict_keys cols)) as [us|] eqn:Hloop; [|done].
  cbn. intros [= <-]. split; [done|].
  revert us Hloop. induction (dict_keys cols) as [|col cols' IH]; intros us; [done|].
  cbn [for_each]. unfold assert_condition at 1.
  destruct (bool_decide (col ∈ DATASET_COLUMNS)) eqn:Hcol; [|done]. cbn.
  destruct (for_each _ cols') as [us'|] eqn:Hrest; [|done]. intros _.
  constructor; [by apply bool_decide_eq_true in Hcol|by eapply IH].
Qed.

(** The loop of [from_row], started from any state whose column keys do
    not occur in the rest of the row. *)
Lemma from_row_loop (score_names : list string) (row : pydict string pyval)
    (cols : pydict string pyval) (scs : list EvalScore.t) :
  NoDup (dict_keys cols ++ dict_keys row) →
  (∀ key v, (key, v) ∈ row → key ∈ score_names → is_numeric v = true) →
  ∃ scs',
    for_fold (from_row_body DATASET_COLUMNS score_names) row (cols, scs)
      = Ok (cols ++ filter (λ item, (item.1 ∉ score_names) ∧ (item.1 ∈ DATASET_COLUMNS)) row,
            scs ++ scs') ∧
    map (λ s, (EvalScore.name s, VNum (EvalScore.value s))) scs'
      = filter (λ item, item.1 ∈ score_names) row.
Proof.
  revert cols scs. induction row as [|[key v] row IH]; intros cols scs Hnd Hnum.
  - exists []. cbn. by rewrite !app_nil_r.
  - assert (∀ key' v', (key', v') ∈ row → key' ∈ score_names → is_numeric v' = true)
      as Hnum' by (intros ? ? ?; apply Hnum; by right).
    cbn [for_fold from_row_body].
    destruct (decide (key ∈ score_names)) as [Hscore|Hscore].
    + rewrite bool_decide_eq_true_2 by done. cbn [negb].
      pose proof (Hnum key v ltac:(left) Hscore) as Hv.
      destruct v as [| |q]; try done. rewrite bind_Ok.
      destruct (IH cols (scs ++ [EvalScore.mk key q])) as (scs' & Hloop & Hback);
        [|done|].
      { cbn in Hnd. apply NoDup_app in Hnd as (Hc & Hdisj & [_ Hr]%NoDup_cons).
        apply NoDup_app. split_and!; [done| |done].
        intros x Hx Hx'. apply (Hdisj x Hx). by right. }
      exists (EvalScore.mk key q :: scs'). rewrite Hloop. split.
      * rewrite filter_cons_False by (intros [Hn Hc]; by apply Hn). by rewrite <- app_assoc.
      * rewrite filter_cons_True by done. cbn. by rewrite Hback.
    + rewrite bool_decide_eq_false_2 by done. cbn [negb].
      destruct (decide (key ∈ DATASET_COLUMNS)) as [Hcol|Hcol].
      * rewrite bool_decide_eq_true_2 by done. rewrite bind_Ok.
        rewrite dict_set_fresh.
        2:{ cbn in Hnd. apply NoDup_app in Hnd as (_ & Hdisj & _).
            intros Hin. apply (Hdisj key Hin). left. }
        destruct (IH (cols ++ [(key, v)]) scs) as (scs' & Hloop & Hback); [|done|].
        { rewrite dict_keys_app. cbn. rewrite <- app_assoc. exact Hnd. }
        exists scs'. rewrite Hloop. split.
        -- rewrite filter_cons_True by done. by rewrite <- app_assoc.
        -- by rewrite filter_cons_False.
      * rewrite bool_decide_eq_false_2 by done. rewrite bind_Ok.
        destruct (IH cols scs) as (scs' & Hloop & Hback); [|done|].
        { cbn in Hnd. apply NoDup_app in Hnd as (Hc & Hdisj & [_ Hr]%NoDup_cons).
          apply NoDup_app. split_and!; [done| |done].
          intros x Hx Hx'. apply (Hdisj x Hx). by right. }
        exists scs'. rewrite Hloop. split.
        -- rewrite filter_cons_False by (intros [Hn Hc]; by apply Hn). done.
        -- by rewrite filter_cons_False.
Qed.

(** The loop of [from_row] stops with [AssertionError] as soon as the row
    holds something other than a number under a score name. *)
Lemma from_row_loop_non_numeric (score_names : list string) (row : pydict string pyval)
    (st : pydict string pyval * list EvalScore.t) :
  Exists (λ item, item.1 ∈ score_names ∧ is_numeric item.2 = false) row →
  for_fold (from_row_body DATASET_COLUMNS score_names) row st = Raise AssertionError.
Proof.
  intros Hbad. revert st.
  induction Hbad as [[key v] row [Hkey Hv]|[key v] row _ IH]; intros [cols scs];
    cbn [for_fold from_row_body fst snd] in *.
  - rewrite bool_decide_eq_true_2 by done. cbn [negb]. by destruct v.
  - destruct (bool_decide (key ∈ score_names)); cbn [negb].
    + destruct v as [| |q]; try done. rewrite bind_Ok. apply IH.
    + destruct (bool_decide (key ∈ DATASET_COLUMNS)); rewrite bind_Ok; apply IH.
Qed.

(** C1 (as amended). For every row (a dictionary, so without repeated keys)
    whose values under the score names are numbers, [from_row] produces a
    record that partitions the row: the keys in [score_names] become the
    scores, in row order; of the other keys exactly those on the
    allow-list become dataset columns; the rest appear nowhere.  On every
    row that holds something other than a number under a score name,
    [from_row] raises [AssertionError] and produces no record. *)
Theorem from_row_partitions_numeric (row : pydict string pyval)
    (score_names : list string) :
  (dict_wf row →
   Forall (λ item, item.1 ∈ score_names → is_numeric item.2 = true) row →
   from_row_partitions DATASET_COLUMNS row score_names ∧
   (∀ rec, from_row DATASET_COLUMNS row score_names = Ok rec →
      ∀ key, key ∈ dict_keys row →
        (key ∈ score_names →
           key ∈ map EvalScore.name (EvalOutputRecord.scores rec) ∧
           (key ∉ dict_keys (EvalOutputRecord.dataset_columns rec))) ∧
        (key ∉ score_names → key ∈ DATASET_COLUMNS →
           (key ∉ map EvalScore.name (EvalOutputRecord.scores rec)) ∧
           key ∈ dict_keys (EvalOutputRecord.dataset_columns rec)) ∧
        (key ∉ score_names → key ∉ DATASET_COLUMNS →
           (key ∉ map EvalScore.name (EvalOutputRecord.scores rec)) ∧
           (key ∉ dict_keys (EvalOutputRecord.dataset_columns rec))))) ∧
  (Exists (λ item, item.1 ∈ score_names ∧ is_numeric item.2 = false) row →
   from_row DATASET_COLUMNS row score_names = Raise AssertionError ∧
   ¬ from_row_partitions DATASET_COLUMNS row score_names).
Proof.
  split.
  2:{ intros Hbad.
      assert (from_row DATASET_COLUMNS row score_names = Raise AssertionError) as Hraise.
      { unfold from_row. by rewrite from_row_loop_non_numeric. }
      split; [exact Hraise|]. intros (rec & Hrec & _). congruence. }
  intros Hwf Hnum.
  assert (from_row_partitions DATASET_COLUMNS row score_names) as Hpart.
  { destruct (from_row_loop score_names row [] []) as (scs & Hloop & Hback);
      [done| |].
    { intros key v Hin. rewrite Forall_forall in Hnum. exact (Hnum (key, v) Hin). }
    unfold from_row_partitions, from_row. rewrite Hloop, bind_Ok. cbn [fst snd app].
    rewrite EvalOutputRecord_init_allowed.
    - eexists. split; [done|]. cbn. done.
    - apply Forall_forall. intros col Hcol.
      apply list_elem_of_fmap in Hcol as ([k v] & -> & Hin).
      apply list_elem_of_filter in Hin as [[_ Hin] _]. done. }
  split; [done|].
  destruct Hpart as (rec & Hrec & Hscores & Hcols).
  intros rec' Hrec' key Hkey. rewrite Hrec in Hrec'. injection Hrec' as <-.
  assert (∀ k, k ∈ map EvalScore.name (EvalOutputRecord.scores rec)
               ↔ k ∈ dict_keys row ∧ k ∈ score_names) as Hsc.
  { intros k.
    replace (map EvalScore.name (EvalOutputRecord.scores rec))
      with (dict_keys (filter (λ item, item.1 ∈ score_names) row)).
    - unfold dict_keys. rewrite list_elem_of_fmap. split.
      + intros ([k' v] & -> & [Hk Hin]%list_elem_of_filter). split; [|done].
        by apply (list_elem_of_fmap_2 fst) in Hin.
      + intros [([k' v] & -> & Hin)%list_elem_of_fmap Hk].
        exists (k', v). split; [done|]. by apply list_elem_of_filter.
    - rewrite <- Hscores. unfold dict_keys.
      rewrite <- list_fmap_compose. done. }
  assert (∀ k, k ∈ dict_keys (EvalOutputRecord.dataset_columns rec)
               ↔ k ∈ dict_keys row ∧ (k ∉ score_names) ∧ k ∈ DATASET_COLUMNS) as Hdc.
  { intros k. rewrite Hcols. unfold dict_keys. rewrite list_elem_of_fmap. split.
    + intros ([k' v] & -> & [Hk Hin]%list_elem_of_filter). split; [|done].
      by apply (list_elem_of_fmap_2 fst) in Hin.
    + intros [([k' v] & -> & Hin)%list_elem_of_fmap Hk].
      exists (k', v). split; [done|]. by apply list_elem_of_filter. }
  rewrite !Hsc, !Hdc. tauto.
Qed.

End RecordFacts.

(** ** Serialization of a record *)

Section ToDictFacts.
Variable DATASET_COLUMNS : list string.

Lemma dict_contains_get (cols : pydict string pyval) (col : string) :
  dict_contains col cols = true → ∃ v, dict_get col cols = Some v.
Proof.
  intros Hin%bool_decide_eq_true.
  destruct (dict_get col cols) as [v|] eqn:Hget; [by eexists|].
  by apply dict_get_None in Hget.
Qed.

Lemma recognized_items_keys (cols : pydict string pyval) (names : list string) :
  dict_keys (recognized_items cols names)
    = filter (λ col, col ∈ dict_keys cols) names.
Proof.
  induction names as [|col names IH]; [done|].
  unfold recognized_items. cbn [omap list_omap]. fold (recognized_items cols names).
  destruct (dict_contains col cols) eqn:Hc.
  - destruct (dict_contains_get _ _ Hc) as [v ->].
    apply bool_decide_eq_true in Hc.
    rewrite filter_cons_True by done. by rewrite <- IH.
  - apply bool_decide_eq_false in Hc. by rewrite filter_cons_False.
Qed.

Lemma recognized_items_get (cols : pydict string pyval) (names : list string)
    (col : string) :
  col ∈ names →
  dict_get col (recognized_items cols names) = JValue <$> dict_get col cols.
Proof.
  assert (∀ names', col ∉ dict_keys cols →
            dict_get col (recognized_items cols names') = None) as Habsent.
  { intros names' Hnot. apply dict_get_None. rewrite recognized_items_keys.
    intros [Hin _]%list_elem_of_filter. done. }
  induction names as [|c names IH]; [by intros ?%elem_of_nil|].
  intros Hin. unfold recognized_items. cbn [omap list_omap].
  fold (recognized_items cols names).
  destruct (dict_contains c cols) eqn:Hc.
  - destruct (dict_contains_get _ _ Hc) as [v Hv]. rewrite Hv. cbn.
    destruct (decide (c = col)) as [->|Hne]; [by rewrite Hv|].
    apply IH. apply elem_of_cons in Hin as [->|Hin]; done.
  - apply bool_decide_eq_false in Hc.
    apply elem_of_cons in Hin as [->|Hin]; [|by apply IH].
    rewrite Habsent by done. apply dict_get_None in Hc. by rewrite Hc.
Qed.

Lemma to_dict_unfold (self : EvalOutputRecord.t) :
  NoDup DATASET_COLUMNS → "scores" ∉ DATASET_COLUMNS →
  _to_dict DATASET_COLUMNS self
    = recognized_items (EvalOutputRecord.dataset_columns self) DATASET_COLUMNS
      ++ [("scores", JObjects (map EvalScore_dict (EvalOutputRecord.scores self)))].
Proof.
  intros Hnd Hscores. unfold _to_dict.
  rewrite dict_of_items_NoDup.
  - apply dict_set_fresh. rewrite recognized_items_keys.
    intros [_ Hin]%list_elem_of_filter. done.
  - change (NoDup (dict_keys (recognized_items
              (EvalOutputRecord.dataset_columns self) DATASET_COLUMNS))).
    rewrite recognized_items_keys. by apply NoDup_filter.
Qed.

(** C3. In the object a record serializes to, the recognized columns come
    first, in the order of the allow-list whatever the order in which the
    record's columns were stored; no key outside the allow-list appears;
    and the key ["scores"] is there exactly once, in last position, even
    when the record has no scores.  (The allow-list itself has no repeated
    name and no column called ["scores"].) *)
Theorem to_dict_canonical_order (self : EvalOutputRecord.t) :
  NoDup DATASET_COLUMNS → "scores" ∉ DATASET_COLUMNS →
  let cols := EvalOutputRecord.dataset_columns self in
  let obj := _to_dict DATASET_COLUMNS self in
  dict_keys obj = filter (λ col, col ∈ dict_keys cols) DATASET_COLUMNS ++ ["scores"] ∧
  (∀ col, col ∈ DATASET_COLUMNS → dict_get col obj = JValue <$> dict_get col cols) ∧
  (∀ key, key ∈ dict_keys obj → key ≠ "scores" →
          key ∈ DATASET_COLUMNS ∧ key ∈ dict_keys cols) ∧
  last obj = Some ("scores", JObjects (map EvalScore_dict (EvalOutputRecord.scores self))) ∧
  dict_wf obj ∧
  (∀ other : EvalOutputRecord.t,
     dict_wf cols →
     EvalOutputRecord.dataset_columns other ≡ₚ cols →
     EvalOutputRecord.scores other = EvalOutputRecord.scores self →
     _to_dict DATASET_COLUMNS other = obj).
Proof.
  intros Hnd Hscores cols obj.
  assert (dict_keys obj
          = filter (λ col, col ∈ dict_keys cols) DATASET_COLUMNS ++ ["scores"]) as Hkeys.
  { subst obj. rewrite to_dict_unfold by done.
    by rewrite dict_keys_app, recognized_items_keys. }
  split_and!.
  - exact Hkeys.
  - intros col Hcol. subst obj. rewrite to_dict_unfold by done.
    rewrite dict_get_snoc_ne by (intros <-; done).
    by apply recognized_items_get.
  - intros key Hkey Hne. rewrite Hkeys in Hkey.
    apply elem_of_app in Hkey as [[? ?]%list_elem_of_filter|Hkey%list_elem_of_singleton];
      done.
  - subst obj. rewrite to_dict_unfold by done. apply last_snoc.
  - unfold dict_wf. rewrite Hkeys. apply NoDup_app. split_and!.
    + by apply NoDup_filter.
    + intros key [_ Hin]%list_elem_of_filter ->%list_elem_of_singleton. done.
    + apply NoDup_singleton.
  - intros other Hwf Hperm Hsc. subst obj. rewrite !to_dict_unfold by done.
    rewrite Hsc. f_equal. fold cols. unfold recognized_items.
    apply list_omap_ext. apply Forall2_same_length_lookup_2; [done|].
    intros i x y Hx Hy. rewrite Hx in Hy. injection Hy as <-.
    unfold dict_contains, dict_keys.
    rewrite (dict_get_Permutation x _ cols); [|unfold dict_wf, dict_keys; by rewrite Hperm|done].
    destruct (decide (x ∈ cols.*1)) as [Hin|Hin].
    + rewrite !bool_decide_eq_true_2; [done|done|by rewrite Hperm].
    + rewrite !bool_decide_eq_false_2; [done|done|by rewrite Hperm].
Qed.

End ToDictFacts.

(** ** [verify_model_determinism] *)

Section DeterminismFacts.
Variable NUM_ROWS_DETERMINISTIC : nat.
Variable model_state : Type.
Variable predict :
  model_state → pyval → (option string * option Qc) * model_state.

Lemma each_twice_length (prompts : list pyval) :
  length (each_twice prompts) = 2 * length prompts.
Proof.
  unfold each_twice. induction prompts as [|p ps IH]; [done|].
  cbn [flat_map length app]. rewrite IH. lia.
Qed.

Lemma for_each_cons_inv {A B} (body : A → result B) (x : A) (xs : list A)
    (ys : list B) :
  for_each body (x :: xs) = Ok ys →
  ∃ y ys', ys = y :: ys' ∧ body x = Ok y ∧ for_each body xs = Ok ys'.
Proof.
  cbn [for_each]. destruct (body x) as [y|]; [|done]. rewrite bind_Ok.
  destruct (for_each body xs) as [ys'|]; [|done]. rewrite bind_Ok.
  intros [= <-]. by exists y, ys'.
Qed.

(** The loop, from any state of the model and of the call log. *)
Lemma verify_rows_spec (prompt_column_name : string)
    (rows : list (pydict string pyval)) (prompts : list pyval)
    (model : model_state) (calls : list pyval) :
  for_each (λ row, row_getitem row prompt_column_name) rows = Ok prompts →
  ∃ b calls',
    verify_rows model_state predict prompt_column_name rows model calls
      = Ok (b, calls ++ calls', after_calls model_state predict model calls') ∧
    match list_find (λ a, a.1 ≠ a.2) (ask_twice model_state predict model prompts) with
    | Some (i, _) => b = false ∧ calls' = each_twice (take (S i) prompts)
    | None => b = true ∧ calls' = each_twice prompts
    end.
Proof.
  revert prompts model calls.
  induction rows as [|row rows IH]; intros prompts model calls Hprompts.
  - injection Hprompts as <-. exists true, [].
    cbn. by rewrite app_nil_r.
  - apply for_each_cons_inv in Hprompts as (p & ps & -> & Hp & Hps).
    cbn [verify_rows ask_twice]. rewrite Hp, bind_Ok.
    destruct (predict model p) as [out1 m1] eqn:Hfirst.
    destruct (predict m1 p) as [out2 m2] eqn:Hsecond.
    assert (∀ calls', after_calls model_state predict model ([p; p] ++ calls')
                      = after_calls model_state predict m2 calls') as Hstate.
    { intros calls'. unfold after_calls. rewrite fold_left_app. cbn [fold_left].
      rewrite Hfirst. cbn [snd]. by rewrite Hsecond. }
    cbn [list_find].
    destruct (decide (out2.1 = out1.1)) as [Heq|Hne].
    + rewrite bool_decide_eq_true_2 by done. cbn [negb].
      rewrite decide_False by (cbn; intros Hd; by apply Hd).
      destruct (IH ps m2 (calls ++ [p; p]) Hps) as (b & calls' & Hrun & Hfind).
      exists b, ([p; p] ++ calls'). split.
      * rewrite Hrun, Hstate. by rewrite <- app_assoc.
      * destruct (list_find _ (ask_twice model_state predict m2 ps)) as [[i a]|];
          cbn; destruct Hfind as [-> ->]; done.
    + rewrite bool_decide_eq_false_2 by done. cbn [negb].
      rewrite decide_True by (cbn; congruence).
      exists false, [p; p]. split; [|cbn; done].
      pose proof (Hstate []) as Hend. cbn [app] in Hend. by rewrite Hend.
Qed.

(** C7. The check looks at the first [NUM_ROWS_DETERMINISTIC] rows only.
    Row after row it sends the row's prompt to the model twice; at the
    first row whose two outputs differ it answers [False] and the model
    is not called again; it answers [True] exactly when the two outputs
    agree for every row it looks at.  The model is left in the state that
    exactly these calls produce: two for each row up to and including the
    first one whose outputs differ, none for a later row. *)
Theorem verify_model_determinism_spec (model : model_state) (dataset : Dataset)
    (prompt_column_name : string) (prompts : list pyval) :
  for_each (λ row, row_getitem row prompt_column_name)
           (take NUM_ROWS_DETERMINISTIC (ds_rows dataset)) = Ok prompts →
  let answers := ask_twice model_state predict model prompts in
  ∃ b calls,
    verify_model_determinism NUM_ROWS_DETERMINISTIC model_state predict
        model dataset prompt_column_name
      = Ok (b, calls, after_calls model_state predict model calls) ∧
    match list_find (λ a, a.1 ≠ a.2) answers with
    | Some (i, _) => b = false ∧ calls = each_twice (take (S i) prompts)
    | None => b = true ∧ calls = each_twice prompts
    end ∧
    (b = true ↔ Forall (λ a, a.1 = a.2) answers) ∧
    (length calls ≤ 2 * NUM_ROWS_DETERMINISTIC)%nat ∧
    (∀ dataset' : Dataset,
       take NUM_ROWS_DETERMINISTIC (ds_rows dataset')
         = take NUM_ROWS_DETERMINISTIC (ds_rows dataset) →
       verify_model_determinism NUM_ROWS_DETERMINISTIC model_state predict
           model dataset' prompt_column_name
         = Ok (b, calls, after_calls model_state predict model calls)).
Proof.
  intros Hprompts answers.
  destruct (verify_rows_spec prompt_column_name _ prompts model [] Hprompts)
    as (b & calls & Hrun & Hfind).
  fold answers in Hfind. rewrite app_nil_l in Hrun.
  assert (length prompts ≤ NUM_ROWS_DETERMINISTIC)%nat as Hlen.
  { rewrite (for_each_length _ _ _ Hprompts), length_take. lia. }
  exists b, calls. split_and!.
  - exact Hrun.
  - exact Hfind.
  - destruct (list_find _ answers) as [[i a]|] eqn:Hf; destruct Hfind as [-> _].
    + split; [done|]. intros Hall. exfalso.
      apply list_find_Some in Hf as (Hi & Hne & _).
      apply list_elem_of_lookup_2 in Hi.
      rewrite Forall_forall in Hall. by apply Hne, Hall.
    + split; [|done]. intros _.
      apply list_find_None in Hf. eapply Forall_impl; [exact Hf|].
      cbn. intros a Hnn. by destruct (decide (a.1 = a.2)).
  - destruct (list_find _ answers) as [[i a]|]; destruct Hfind as [_ ->];
      rewrite each_twice_length; [rewrite length_take|]; lia.
  - intros dataset' Hsame. unfold verify_model_determinism, Dataset_limit in *.
    cbn [ds_rows] in *. by rewrite Hsame.
Qed.

End DeterminismFacts.

(** ** The file written by [save_dataset] *)

Lemma str_app_cons (a : ascii) (s t : string) : String a s +:+ t = String a (s +:+ t).
Proof. reflexivity. Qed.

Lemma str_app_nil_r (s : string) : s +:+ "" = s.
Proof. induction s as [|a s IH]; [done|]. by rewrite str_app_cons, IH. Qed.

Lemma str_app_assoc (s1 s2 s3 : string) : (s1 +:+ s2) +:+ s3 = s1 +:+ (s2 +:+ s3).
Proof. induction s1 as [|a s1 IH]; [done|]. by rewrite !str_app_cons, IH. Qed.

Lemma join_cons (sep x : string) (xs : list string) :
  xs ≠ [] → String.concat sep (x :: xs) = x +:+ sep +:+ String.concat sep xs.
Proof. by destruct xs. Qed.

Lemma join_app (sep : string) (xs ys : list string) :
  xs ≠ [] → ys ≠ [] →
  String.concat sep (xs ++ ys) = String.concat sep xs +:+ sep +:+ String.concat sep ys.
Proof.
  intros Hxs Hys. induction xs as [|x xs IH]; [done|].
  destruct xs as [|x' xs].
  - cbn [app]. by rewrite join_cons.
  - rewrite <- app_comm_cons, !join_cons by done.
    rewrite IH by done. by rewrite !str_app_assoc.
Qed.

Section SaveFacts.
Variable EVAL_OUTPUT_RECORDS_BATCH_SIZE : nat.
Hypothesis batch_size_positive : (0 < EVAL_OUTPUT_RECORDS_BATCH_SIZE)%nat.

Lemma trailing_newline_pending (n : nat) :
  (0 < n < EVAL_OUTPUT_RECORDS_BATCH_SIZE)%nat →
  trailing_newline EVAL_OUTPUT_RECORDS_BATCH_SIZE n = "".
Proof.
  intros [Hpos Hlt]. unfold trailing_newline.
  rewrite Nat.mod_small by done.
  destruct (Nat.eqb_spec n 0); [lia|]. by rewrite andb_false_r.
Qed.

Lemma trailing_newline_full :
  trailing_newline EVAL_OUTPUT_RECORDS_BATCH_SIZE EVAL_OUTPUT_RECORDS_BATCH_SIZE = newline.
Proof.
  unfold trailing_newline. rewrite Nat.Div0.mod_same.
  by destruct (Nat.ltb_spec 0 EVAL_OUTPUT_RECORDS_BATCH_SIZE); [|lia].
Qed.

Lemma trailing_newline_after_batch (n : nat) :
  (0 < n)%nat →
  trailing_newline EVAL_OUTPUT_RECORDS_BATCH_SIZE (EVAL_OUTPUT_RECORDS_BATCH_SIZE + n)
    = trailing_newline EVAL_OUTPUT_RECORDS_BATCH_SIZE n.
Proof.
  intros Hn. unfold trailing_newline.
  replace ((EVAL_OUTPUT_RECORDS_BATCH_SIZE + n) mod EVAL_OUTPUT_RECORDS_BATCH_SIZE)%nat
    with (n mod EVAL_OUTPUT_RECORDS_BATCH_SIZE)%nat.
  - destruct (Nat.ltb_spec 0 n); [|lia].
    by destruct (Nat.ltb_spec 0 (EVAL_OUTPUT_RECORDS_BATCH_SIZE + n)); [|lia].
  - rewrite <- (Nat.Div0.mod_add n 1 EVAL_OUTPUT_RECORDS_BATCH_SIZE).
    f_equal. lia.
Qed.

(** What is in the file once the loop and the final write are done, from
    any point of the loop. *)
Lemma write_batches_spec (rows records : list string) (fh : string) :
  (length records < EVAL_OUTPUT_RECORDS_BATCH_SIZE)%nat →
  (let '(pending, written) :=
     write_batches EVAL_OUTPUT_RECORDS_BATCH_SIZE rows records fh in
   match pending with
   | [] => written
   | _ => written +:+ String.concat newline pending
   end)
  = fh +:+ (String.concat newline (records ++ rows)
            +:+ trailing_newline EVAL_OUTPUT_RECORDS_BATCH_SIZE (length (records ++ rows))).
Proof.
  revert records fh. induction rows as [|r rows IH]; intros records fh Hlen.
  - cbn [write_batches]. rewrite app_nil_r. destruct records as [|r0 records].
    + cbn. by rewrite str_app_nil_r.
    + rewrite trailing_newline_pending by (cbn [length] in *; lia).
      by rewrite str_app_nil_r.
  - cbn [write_batches].
    replace (records ++ r :: rows) with ((records ++ [r]) ++ rows)
      by (by rewrite <- app_assoc).
    destruct (Nat.eqb_spec (length (records ++ [r])) EVAL_OUTPUT_RECORDS_BATCH_SIZE)
      as [Hfull|Hnot].
    + specialize (IH [] (fh +:+ (String.concat newline (records ++ [r]) +:+ newline))
                     batch_size_positive).
      rewrite IH. cbn [app]. rewrite !str_app_assoc. f_equal.
      destruct rows as [|r' rows].
      * rewrite app_nil_r, Hfull, trailing_newline_full. cbn.
        by rewrite str_app_nil_r.
      * rewrite (join_app newline (records ++ [r]) (r' :: rows));
          [|by intros [_ ?]%app_eq_nil|done].
        rewrite length_app, Hfull.
        rewrite trailing_newline_after_batch by (cbn [length]; lia).
        by rewrite !str_app_assoc.
    + apply IH. rewrite length_app in *. cbn [length] in *. lia.
Qed.

(** C9 (what the code does). The file holds the records in order,
    separated by newlines; after the last record there is one more
    newline exactly when the number of records is a positive multiple of
    the batch size.  So the bytes written do depend on the batch size. *)
Theorem write_records_trailing_newline (rows : list string) :
  write_records EVAL_OUTPUT_RECORDS_BATCH_SIZE rows
    = String.concat newline rows
      +:+ trailing_newline EVAL_OUTPUT_RECORDS_BATCH_SIZE (length rows).
Proof.
  unfold write_records.
  pose proof (write_batches_spec rows [] "" batch_size_positive) as Hspec.
  destruct (write_batches EVAL_OUTPUT_RECORDS_BATCH_SIZE rows [] "") as [pending written].
  exact Hspec.
Qed.

End SaveFacts.

(** C8 (failing input). For a path that is a bare file name the output
    does not stay in the directory of the path: the directory part is
    empty, yet the file is opened under the root directory. *)
Theorem jsonl_path_bare_file_name :
  os_path_dirname "results.json" = "" ∧
  os_path_basename "results.json" = "results.json" ∧
  jsonl_path "results.json" = "/results.jsonl" ∧
  os_path_dirname (jsonl_path "results.json") = "/".
Proof. by vm_compute. Qed.

(** * The documented examples, and instances of the theorems *)

Example from_row_docstring_example :
  from_row example_columns example_row ["rouge"; "bert_score"]
  = Ok (EvalOutputRecord.mk
          [EvalScore.mk "rouge" (Q2Qc 0.5); EvalScore.mk "bert_score" (Q2Qc 0.42)]
          [("model_input", VStr "hello")]).
Proof. reflexivity. Qed.

Lemma generate_mean_delta_score_spec_witness :
  generate_mean_delta_score (EvalScore.mk "acc" 1%Qc)
      [EvalScore.mk "acc" (Q2Qc 0.5); EvalScore.mk "acc" (Q2Qc 1.5)]
    = Ok (arithmetic_mean [Qcabs (1 - Q2Qc 0.5)%Qc; Qcabs (1 - Q2Qc 1.5)%Qc]) ∧
  generate_mean_delta_score (EvalScore.mk "acc" 1%Qc) [] = Raise ZeroDivisionError.
Proof.
  split.
  - apply (generate_mean_delta_score_spec (EvalScore.mk "acc" 1%Qc)
             [EvalScore.mk "acc" (Q2Qc 0.5); EvalScore.mk "acc" (Q2Qc 1.5)]).
    discriminate.
  - apply (generate_mean_delta_score_spec (EvalScore.mk "acc" 1%Qc) []).
    reflexivity.
Defined.

Lemma WER_init_spec_witness :
  WER_init ["p1"; "p2"] ["r1"; "r2"; "r3"] "wer"
    = Raise (EvalAlgorithmClientError
        "prediction_keys and reference_keys should have the same number of elements. prediction_keys has 2 elements while reference_keys has 3 elements.") ∧
  WER_init ["p1"; "p2"; "p3"] ["r1"; "r2"; "r3"] "wer"
    = Ok (mkWER ["p1"; "p2"; "p3"] ["r1"; "r2"; "r3"] "wer").
Proof.
  split.
  - apply (WER_init_spec ["p1"; "p2"] ["r1"; "r2"; "r3"] "wer"); reflexivity.
  - apply (WER_init_spec ["p1"; "p2"; "p3"] ["r1"; "r2"; "r3"] "wer"). reflexivity.
Defined.

Lemma WER_call_spec_witness :
  ∃ r' : record,
    WER_call example_wer_metric (mkWER ["p1"; "p2"; "p3"] ["r1"; "r2"; "r3"] "wer")
        example_wer_record
      = Ok (r', [mkInvocation [VStr "a"; VStr "b"; VStr "c"]
                              [VStr "d"; VStr "e"; VStr "f"]]) ∧
    r' !! "wer" = Some (VNum (Q2Qc 0.123)).
Proof.
  destruct (WER_call_spec example_wer_metric
              (mkWER ["p1"; "p2"; "p3"] ["r1"; "r2"; "r3"] "wer") example_wer_record
              [VStr "a"; VStr "b"; VStr "c"] [VStr "d"; VStr "e"; VStr "f"])
    as (r' & Hcall & Hout & _).
  - repeat constructor.
  - repeat constructor.
  - exists r'. split; [exact Hcall|exact Hout].
Defined.


(** C1 (as stated) fails on a row that holds text under a score name: the
    assertion in the loop stops [from_row], and no record is produced. *)
Lemma from_row_text_score_counterexample :
  dict_wf [("model_input", VStr "hello"); ("rouge", VStr "high")] ∧
  from_row example_columns [("model_input", VStr "hello"); ("rouge", VStr "high")] ["rouge"]
    = Raise AssertionError ∧
  ¬ from_row_partitions example_columns
      [("model_input", VStr "hello"); ("rouge", VStr "high")] ["rouge"].
Proof.
  split_and!.
  - unfold dict_wf. compute_done.
  - reflexivity.
  - intros (rec & Hrec & _). discriminate Hrec.
Qed.

Lemma from_row_partitions_numeric_witness :
  from_row_partitions example_columns example_row ["rouge"; "bert_score"] ∧
  from_row example_columns [("model_input", VStr "hello"); ("rouge", VNone)] ["rouge"]
    = Raise AssertionError.
Proof.
  split.
  - destruct (from_row_partitions_numeric example_columns example_row
                ["rouge"; "bert_score"]) as [Hnumeric _].
    destruct Hnumeric as [Hpartition _].
    + unfold dict_wf. compute_done.
    + compute_done.
    + exact Hpartition.
  - destruct (from_row_partitions_numeric example_columns
                [("model_input", VStr "hello"); ("rouge", VNone)] ["rouge"])
      as [_ Hraises].
    destruct Hraises as [Hraise _].
    + apply Exists_cons_tl, Exists_cons_hd. split; [compute_done|reflexivity].
    + exact Hraise.
Defined.

Lemma to_dict_canonical_order_witness :
  dict_keys (_to_dict example_columns example_output_record)
    = ["model_input"; "category"; "scores"] ∧
  last (_to_dict example_columns example_output_record)
    = Some ("scores",
            JObjects [[("name", VStr "rouge"); ("value", VNum (Q2Qc 0.5))]]).
Proof.
  destruct (to_dict_canonical_order example_columns example_output_record)
    as (Hkeys & _ & _ & Hlast & _).
  - compute_done.
  - compute_done.
  - split; [exact Hkeys|exact Hlast].
Defined.

Lemma verify_model_determinism_spec_witness :
  verify_model_determinism 3 nat example_predict 0 example_prompt_dataset "prompt"
    = Ok (false, [VStr "p1"; VStr "p1"; VStr "p2"; VStr "p2"], 4%nat).
Proof.
  destruct (verify_model_determinism_spec 3 nat example_predict 0
              example_prompt_dataset "prompt" [VStr "p1"; VStr "p2"; VStr "p3"])
    as (b & calls & Hrun & Hfind & _).
  - reflexivity.
  - cbn in Hfind. destruct Hfind as [-> ->]. exact Hrun.
Defined.

Lemma write_records_trailing_newline_witness :
  write_records 2 ["a"; "b"] = "a" +:+ newline +:+ "b" +:+ newline ∧
  write_records 2 ["a"; "b"; "c"] = "a" +:+ newline +:+ "b" +:+ newline +:+ "c".
Proof.
  split.
  - rewrite (write_records_trailing_newline 2); [reflexivity|lia].
  - rewrite (write_records_trailing_newline 2); [reflexivity|lia].
Defined.

(** C9 (failing input). With a batch size of 2, two records are followed by
    a newline and three records are not; writing the same three records one
    by one (batch size 1) ends the file with a newline. *)
Example write_records_depends_on_batch_size :
  write_records 2 ["a"; "b"; "c"] = "a" +:+ newline +:+ "b" +:+ newline +:+ "c" ∧
  write_records 1 ["a"; "b"; "c"]
    = "a" +:+ newline +:+ "b" +:+ newline +:+ "c" +:+ newline ∧
  write_records 2 ["a"; "b"; "c"] ≠ write_records 1 ["a"; "b"; "c"] ∧
  write_records 2 ["a"; "b"] ≠ write_records 3 ["a"; "b"].
Proof. split_and!; [reflexivity|reflexivity|discriminate|discriminate]. Qed.

(** ** Aggregation *)

Section DictOfFunction.
Context {K V : Type} `{EqDecision K}.

Lemma dict_get_map (g : K → V) (keys : list K) (key : K) :
  key ∈ keys → dict_get key (map (λ k, (k, g k)) keys) = Some (g key).
Proof.
  induction keys as [|k keys IH]; [by intros ?%elem_of_nil|].
  intros Hin. cbn [map dict_get].
  destruct (decide (k = key)) as [->|Hne]; [done|].
  apply IH. by apply elem_of_cons in Hin as [->|Hin].
Qed.

Lemma dict_set_map (g : K → V) (keys : list K) (key : K) (v : V) :
  NoDup keys → key ∈ keys →
  dict_set key v (map (λ k, (k, g k)) keys)
    = map (λ k, (k, if decide (k = key) then v else g k)) keys.
Proof.
  induction keys as [|k keys IH]; [by intros _ ?%elem_of_nil|].
  intros [Hk Hnd]%NoDup_cons Hin. cbn [map dict_set].
  destruct (decide (k = key)) as [->|Hne].
  - f_equal. apply map_ext_in. intros k' Hk'%list_elem_of_In.
    rewrite decide_False; [done|]. by intros ->.
  - f_equal. apply IH; [done|]. by apply elem_of_cons in Hin as [->|Hin].
Qed.
End DictOfFunction.

Lemma Forall_on_filter {A} (P Q : A → Prop) `{∀ x, Decision (P x)} (l : list A) :
  Forall Q l → Forall Q (filter P l).
Proof.
  rewrite !Forall_forall. intros Hall x [_ Hx]%list_elem_of_filter. by apply Hall.
Qed.

Lemma mean_column_not_category (column : string) : CATEGORY ≠ mean_column column.
Proof. discriminate. Qed.

Lemma omap_id_Some {A} (l : list A) : omap id (map Some l) = l.
Proof. induction l as [|x l IH]; [done|]. cbn. by rewrite IH. Qed.

Lemma Dataset_numbers_Ok (column : string) (rows : list (pydict string pyval)) :
  Forall (λ row, has_number column row = true) rows →
  Dataset_numbers rows column = Ok (numbers_of column rows).
Proof.
  intros Hall. unfold Dataset_numbers.
  rewrite (for_each_Ok _ _ (map Some (numbers_of column rows))).
  - by rewrite bind_Ok, omap_id_Some.
  - induction Hall as [|row rows Hrow _ IH]; [constructor|].
    unfold has_number in Hrow. unfold numbers_of. cbn [omap list_omap].
    destruct (dict_get column row) as [[| |q]|] eqn:Hget; try done.
    cbn [map]. constructor; [|exact IH]. unfold row_getitem. by rewrite Hget.
Qed.

Lemma numbers_of_length (column : string) (rows : list (pydict string pyval)) :
  Forall (λ row, has_number column row = true) rows →
  length (numbers_of column rows) = length rows.
Proof.
  induction 1 as [|row rows Hrow _ IH]; [done|].
  unfold has_number in Hrow. unfold numbers_of in *. cbn [omap list_omap].
  destruct (dict_get column row) as [[| |q]|]; try done. cbn [length]. by rewrite IH.
Qed.

Lemma numbers_of_nonempty (column : string) (rows : list (pydict string pyval)) :
  Forall (λ row, has_number column row = true) rows →
  rows ≠ [] → numbers_of column rows ≠ [].
Proof.
  intros Hall Hne Hnil. apply numbers_of_length in Hall.
  rewrite Hnil in Hall. by destruct rows.
Qed.

Lemma mean_of_nonempty (values : list Qc) :
  values ≠ [] → mean_of values = Some (arithmetic_mean values).
Proof. by destruct values. Qed.

(** A category that occurs in the dataset has a row. *)
Lemma group_rows_nonempty (dataset : Dataset) (category : pyval) :
  category ∈ values_of CATEGORY (ds_rows dataset) →
  group_rows dataset CATEGORY category ≠ [].
Proof.
  unfold values_of, group_rows. intros (row & Hrow & Hget)%list_elem_of_omap Hnil.
  assert (row ∈ filter (λ row, dict_get CATEGORY row = Some category) (ds_rows dataset))
    as Hin by (by apply list_elem_of_filter).
  rewrite Hnil in Hin. by apply elem_of_nil in Hin.
Qed.

Lemma values_of_Ok (column : string) (rows : list (pydict string pyval)) :
  Forall (λ row, is_Some (dict_get column row)) rows →
  for_each (λ row, row_getitem row column) rows = Ok (values_of column rows).
Proof.
  intros Hall. apply for_each_Ok.
  induction Hall as [|row rows [v Hv] _ IH]; [constructor|].
  unfold values_of. cbn [omap list_omap]. rewrite Hv.
  constructor; [|exact IH]. unfold row_getitem. by rewrite Hv.
Qed.

Lemma values_of_nonempty (column : string) (rows : list (pydict string pyval)) :
  Forall (λ row, is_Some (dict_get column row)) rows →
  rows ≠ [] → values_of column rows ≠ [].
Proof.
  intros Hall Hne Hnil. apply values_of_Ok, for_each_length in Hall.
  rewrite Hnil in Hall. by destruct rows.
Qed.

Section AggregationFacts.
Variable MEAN : string.
Variable unique_order : list pyval → list pyval.
Variable groupby_order : list pyval → list pyval.
Hypothesis unique_order_perm : ∀ l, unique_order l ≡ₚ l.
Hypothesis groupby_order_perm : ∀ l, groupby_order l ≡ₚ l.

Lemma dataset_aggregation_mean (dataset : Dataset) (column : string) :
  ds_rows dataset ≠ [] →
  Forall (λ row, has_number column row = true) (ds_rows dataset) →
  dataset_aggregation MEAN dataset column MEAN
    = Ok (arithmetic_mean (numbers_of column (ds_rows dataset))).
Proof.
  intros Hne Hall. unfold dataset_aggregation, Dataset_mean.
  rewrite String.eqb_refl, Dataset_numbers_Ok, !bind_Ok by done.
  by rewrite mean_of_nonempty by by apply numbers_of_nonempty.
Qed.

Lemma category_wise_aggregation_mean (dataset : Dataset) (column : string) :
  Forall (λ row, is_Some (dict_get CATEGORY row)) (ds_rows dataset) →
  Forall (λ row, has_number column row = true) (ds_rows dataset) →
  category_wise_aggregation MEAN groupby_order dataset column MEAN
    = Ok (map (category_mean_row dataset column)
              (groupby_order (remove_dups (values_of CATEGORY (ds_rows dataset))))).
Proof.
  intros Hcat Hnum. unfold category_wise_aggregation, Dataset_groupby_mean.
  rewrite String.eqb_refl, values_of_Ok, bind_Ok by done.
  apply for_each_Ok. apply Forall2_fmap_r, Forall_Forall2_diag, Forall_forall.
  intros category Hcategory.
  assert (Forall (λ row, has_number column row = true)
                 (group_rows dataset CATEGORY category)) as Hgroup.
  { unfold group_rows. by apply Forall_on_filter. }
  rewrite Dataset_numbers_Ok, bind_Ok by done.
  rewrite mean_of_nonempty; [done|].
  apply numbers_of_nonempty; [done|]. apply group_rows_nonempty.
  rewrite groupby_order_perm in Hcategory. by apply elem_of_remove_dups.
Qed.

(** One turn of the inner loop, for a category not yet seen. *)
Lemma append_category_score_seen (dataset : Dataset) (finished : list string)
    (column : string) (seen categories : list pyval) (category : pyval) :
  NoDup categories → category ∈ categories → category ∉ seen →
  append_category_score column
      (category_scores_during dataset finished column seen categories)
      (category_mean_row dataset column category)
    = Ok (category_scores_during dataset finished column (seen ++ [category]) categories).
Proof.
  intros Hnd Hin Hnew. unfold append_category_score, category_mean_row, row_getitem.
  cbn [dict_get]. rewrite (decide_True (P := CATEGORY = CATEGORY)) by done.
  rewrite bind_Ok.
  unfold category_scores_during at 1. rewrite dict_get_map by done.
  rewrite (decide_False (P := CATEGORY = mean_column column))
    by apply mean_column_not_category.
  rewrite (decide_True (P := mean_column column = mean_column column)) by done.
  cbn [mbind result_bind].
  rewrite (decide_False (P := category ∈ seen)) by done.
  rewrite app_nil_r. cbn [CategoryScore.name CategoryScore.scores].
  f_equal. unfold category_scores_during.
  rewrite dict_set_map by done. apply map_ext_in.
  intros k _. f_equal. destruct (decide (k = category)) as [->|Hne].
  - rewrite decide_True by (apply elem_of_app; right; by left). done.
  - destruct (decide (k ∈ seen)) as [Hs|Hs].
    + rewrite decide_True by (apply elem_of_app; by left). done.
    + rewrite decide_False; [done|].
      intros [?|?%list_elem_of_singleton]%elem_of_app; done.
Qed.

(** The inner loop over the rows of one aggregate. *)
Lemma append_category_score_loop (dataset : Dataset) (finished : list string)
    (column : string) (categories todo seen : list pyval) :
  NoDup categories → NoDup (seen ++ todo) → todo ⊆ categories →
  for_fold (append_category_score column)
      (map (category_mean_row dataset column) todo)
      (category_scores_during dataset finished column seen categories)
    = Ok (category_scores_during dataset finished column (seen ++ todo) categories).
Proof.
  intros Hnd. revert seen. induction todo as [|category todo IH]; intros seen Hfresh Hsub.
  - cbn. by rewrite app_nil_r.
  - cbn [map for_fold].
    apply NoDup_app in Hfresh as Hparts. destruct Hparts as (_ & Hdisj & _).
    rewrite append_category_score_seen; [|done| |].
    + rewrite bind_Ok, IH.
      * by rewrite <- app_assoc.
      * by rewrite <- app_assoc.
      * intros k Hk. apply Hsub. by right.
    + apply Hsub. left.
    + intros Hs. apply (Hdisj _ Hs). left.
Qed.

Lemma category_scores_during_none (dataset : Dataset) (finished : list string)
    (column : string) (categories : list pyval) :
  category_scores_during dataset finished column [] categories
    = category_scores_after dataset finished categories.
Proof.
  unfold category_scores_during, category_scores_after, category_mean_scores.
  apply map_ext. intros k. rewrite decide_False by apply not_elem_of_nil.
  by rewrite app_nil_r.
Qed.

Lemma category_scores_during_all (dataset : Dataset) (finished : list string)
    (column : string) (seen categories : list pyval) :
  categories ⊆ seen →
  category_scores_during dataset finished column seen categories
    = category_scores_after dataset (finished ++ [column]) categories.
Proof.
  intros Hall.
  unfold category_scores_during, category_scores_after, category_mean_scores.
  apply map_ext_in. intros k Hk%list_elem_of_In.
  rewrite decide_True by by apply Hall. by rewrite map_app.
Qed.

(** The outer loop over the score columns. *)
Lemma category_scores_loop (dataset : Dataset) (finished todo : list string)
    (categories : list pyval) :
  NoDup categories →
  categories ≡ₚ remove_dups (values_of CATEGORY (ds_rows dataset)) →
  Forall (λ row, is_Some (dict_get CATEGORY row)) (ds_rows dataset) →
  Forall (λ column, Forall (λ row, has_number column row = true) (ds_rows dataset)) todo →
  for_fold (λ category_scores score_column_name,
              category_aggregate ←
                category_wise_aggregation MEAN groupby_order dataset score_column_name MEAN;
              for_fold (append_category_score score_column_name)
                       category_aggregate category_scores)
      todo (category_scores_after dataset finished categories)
    = Ok (category_scores_after dataset (finished ++ todo) categories).
Proof.
  intros Hnd Hperm Hcat. revert finished.
  induction todo as [|column todo IH]; intros finished Hnum.
  - cbn. by rewrite app_nil_r.
  - apply Forall_cons in Hnum as [Hcol Hnum]. cbn [for_fold].
    rewrite category_wise_aggregation_mean, bind_Ok by done.
    rewrite <- (category_scores_during_none dataset finished column).
    assert (groupby_order (remove_dups (values_of CATEGORY (ds_rows dataset)))
            ≡ₚ categories) as Hgroups.
    { by rewrite groupby_order_perm, Hperm. }
    rewrite append_category_score_loop.
    + rewrite bind_Ok, app_nil_l, category_scores_during_all.
      * rewrite IH by done. by rewrite <- app_assoc.
      * intros k Hk. by rewrite Hgroups.
    + done.
    + rewrite app_nil_l, Hgroups. done.
    + intros k Hk. by rewrite <- Hgroups.
Qed.

Lemma category_scores_initial (dataset : Dataset) (categories : list pyval) :
  NoDup categories →
  dict_of_items (map (λ name, (name, CategoryScore.mk name [])) categories)
    = category_scores_after dataset [] categories.
Proof.
  intros Hnd. rewrite dict_of_items_NoDup; [done|].
  rewrite <- list_fmap_compose. by rewrite list_fmap_id.
Qed.

Lemma category_scores_values (dataset : Dataset) (finished : list string)
    (categories : list pyval) :
  dict_values (category_scores_after dataset finished categories)
    = map (category_mean_scores dataset finished) categories.
Proof.
  unfold dict_values, category_scores_after. by rewrite <- list_fmap_compose.
Qed.

(** C2 (as amended). With the mean method, on a dataset that has a schema,
    at least one row and a number in every score column of every row, the
    dataset-level scores are one [EvalScore] per score column, valued at the
    arithmetic mean of the column over all rows, in the order of
    [score_column_names].  When the dataset has a category column (and
    every row a category) there is, besides, one [CategoryScore] per
    distinct category value, each with one [EvalScore] per score column
    (the mean over the rows of that category), again in the order of
    [score_column_names]; without a category column the second component is
    [None].  On a dataset without rows, with at least one score column to
    aggregate, the call raises [AssertionError] instead. *)
Theorem aggregate_evaluation_scores_spec (dataset : Dataset)
    (score_column_names : list string) :
  (∀ columns,
     ds_columns dataset = Some columns →
     ds_rows dataset ≠ [] →
     Forall (λ column, Forall (λ row, has_number column row = true) (ds_rows dataset))
            score_column_names →
     (CATEGORY ∈ columns →
      Forall (λ row, is_Some (dict_get CATEGORY row)) (ds_rows dataset)) →
     let categories := unique_order (remove_dups (values_of CATEGORY (ds_rows dataset))) in
     aggregate_evaluation_scores MEAN unique_order groupby_order
         dataset score_column_names MEAN
       = Ok (map (mean_score (ds_rows dataset)) score_column_names,
             if decide (CATEGORY ∈ columns)
             then Some (map (category_mean_scores dataset score_column_names) categories)
             else None) ∧
     map EvalScore.name (map (mean_score (ds_rows dataset)) score_column_names)
       = score_column_names ∧
     NoDup categories ∧
     (∀ category,
        category ∈ categories ↔ category ∈ values_of CATEGORY (ds_rows dataset)) ∧
     (∀ category,
        CategoryScore.name (category_mean_scores dataset score_column_names category)
          = category ∧
        CategoryScore.scores (category_mean_scores dataset score_column_names category)
          = map (λ column,
                   EvalScore.mk_any column
                     (VNum (arithmetic_mean
                              (numbers_of column (group_rows dataset CATEGORY category)))))
                score_column_names)) ∧
  (ds_rows dataset = [] → score_column_names ≠ [] →
   aggregate_evaluation_scores MEAN unique_order groupby_order
       dataset score_column_names MEAN
     = Raise AssertionError).
Proof.
  split.
  2:{ intros Hempty Hne. destruct score_column_names as [|column names]; [done|].
      unfold aggregate_evaluation_scores. cbn [for_each].
      unfold dataset_aggregation, Dataset_mean, Dataset_numbers.
      rewrite String.eqb_refl, Hempty. reflexivity. }
  intros columns Hcolumns Hrows Hnum Hcat categories.
  assert (NoDup categories) as Hnd.
  { subst categories. rewrite unique_order_perm. apply NoDup_remove_dups. }
  assert (∀ rows, map EvalScore.name (map (mean_score rows) score_column_names)
                  = score_column_names) as Hnames.
  { intros rows. rewrite <- list_fmap_compose. apply list_fmap_id. }
  split_and!.
  - unfold aggregate_evaluation_scores.
    rewrite (for_each_Ok _ _ (map (mean_score (ds_rows dataset)) score_column_names)).
    2:{ apply Forall2_fmap_r, Forall_Forall2_diag.
        eapply Forall_impl; [exact Hnum|]. cbn beta. intros column Hcol.
        by rewrite dataset_aggregation_mean. }
    rewrite bind_Ok. unfold columns_contains. rewrite Hcolumns, bind_Ok.
    destruct (decide (CATEGORY ∈ columns)) as [Hin|Hnotin].
    + specialize (Hcat Hin). rewrite bool_decide_eq_true_2 by done.
      unfold Dataset_unique. rewrite values_of_Ok, !bind_Ok by done.
      fold categories. rewrite (category_scores_initial dataset) by done.
      rewrite category_scores_loop; [|done|apply unique_order_perm|done|done].
      cbn [fmap result_fmap mbind result_bind app].
      rewrite <- category_scores_values.
      assert (categories ≠ []) as Hcne.
      { pose proof (values_of_nonempty CATEGORY (ds_rows dataset) Hcat Hrows) as Hvne.
        assert (∃ v, v ∈ values_of CATEGORY (ds_rows dataset)) as [v Hv].
        { revert Hvne. generalize (values_of CATEGORY (ds_rows dataset)).
          intros [|v vs] ?; [done|]. exists v. left. }
        assert (v ∈ categories) as Hv'.
        { unfold categories. rewrite unique_order_perm. by apply elem_of_remove_dups. }
        intros Hnil. rewrite Hnil in Hv'. by apply elem_of_nil in Hv'. }
      destruct categories as [|c cs]; [done|]. reflexivity.
    + by rewrite bool_decide_eq_false_2.
  - apply Hnames.
  - exact Hnd.
  - intros category. subst categories.
    rewrite unique_order_perm. apply elem_of_remove_dups.
  - intros category. split; [done|]. reflexivity.
Qed.

End AggregationFacts.

Lemma aggregate_evaluation_scores_spec_witness :
  aggregate_evaluation_scores "mean" (λ l, l) (λ l, l) example_scored_dataset ["rouge"] "mean"
    = Ok ([EvalScore.mk "rouge" (arithmetic_mean [Q2Qc 0.5; Q2Qc 1; Q2Qc 1.5])],
          Some [CategoryScore.mk (VStr "b")
                  [EvalScore.mk_any "rouge" (VNum (arithmetic_mean [Q2Qc 1]))];
                CategoryScore.mk (VStr "a")
                  [EvalScore.mk_any "rouge"
                     (VNum (arithmetic_mean [Q2Qc 0.5; Q2Qc 1.5]))]]) ∧
  aggregate_evaluation_scores "mean" (λ l, l) (λ l, l)
      (mkDataset (Some ["model_input"; "category"; "rouge"]) []) ["rouge"] "mean"
    = Raise AssertionError.
Proof.
  split.
  - destruct (aggregate_evaluation_scores_spec "mean" (λ l, l) (λ l, l)
                (λ l, reflexivity l) (λ l, reflexivity l)
                example_scored_dataset ["rouge"]) as [Hgeneral _].
    destruct (Hgeneral ["model_input"; "category"; "rouge"]) as [Hresult _].
    + reflexivity.
    + discriminate.
    + compute_done.
    + intros _. compute_done.
    + exact Hresult.
  - apply (aggregate_evaluation_scores_spec "mean" (λ l, l) (λ l, l)
             (λ l, reflexivity l) (λ l, reflexivity l)
             (mkDataset (Some ["model_input"; "category"; "rouge"]) []) ["rouge"]).
    + reflexivity.
    + discriminate.
Defined.

(** C2 (as stated) fails on a dataset without rows: Ray's mean of a column
    is [None] there, and the assertion of [dataset_aggregation] stops the
    call, whether the schema is known or not.  Where a score is null in
    some row, the mean is taken over the other rows only. *)
Lemma aggregate_evaluation_scores_empty_counterexample :
  aggregate_evaluation_scores "mean" (λ l, l) (λ l, l)
      (mkDataset None []) ["rouge"] "mean" = Raise AssertionError ∧
  aggregate_evaluation_scores "mean" (λ l, l) (λ l, l)
      (mkDataset (Some ["rouge"]) []) ["rouge"] "mean" = Raise AssertionError ∧
  aggregate_evaluation_scores "mean" (λ l, l) (λ l, l)
      (mkDataset (Some ["rouge"]) [[("rouge", VNum (Q2Qc 1))]; [("rouge", VNone)]])
      ["rouge"] "mean"
    = Ok ([EvalScore.mk "rouge" (arithmetic_mean [Q2Qc 1])], None).
Proof. split_and!; reflexivity. Qed.

(** ** The path of the output file *)

Lemma str_length_app (s1 s2 : string) :
  String.length (s1 +:+ s2) = (String.length s1 + String.length s2)%nat.
Proof.
  induction s1 as [|a s1 IH]; [done|].
  rewrite str_app_cons. cbn [String.length]. by rewrite IH.
Qed.

Lemma substring_take_app (s1 s2 : string) :
  substring 0 (String.length s1) (s1 +:+ s2) = s1.
Proof.
  induction s1 as [|a s1 IH].
  - cbn [String.length]. by destruct s2.
  - rewrite str_app_cons. cbn [String.length substring]. by rewrite IH.
Qed.

Lemma substring_all (s : string) : substring 0 (String.length s) s = s.
Proof.
  rewrite <- (str_app_nil_r s) at 2. apply substring_take_app.
Qed.

Lemma substring_drop_app (s1 s2 : string) (m : nat) :
  substring (String.length s1) m (s1 +:+ s2) = substring 0 m s2.
Proof.
  induction s1 as [|a s1 IH]; [done|].
  rewrite str_app_cons. cbn [String.length substring]. exact IH.
Qed.

Lemma str_upto_app (s1 s2 : string) :
  str_upto (Z.of_nat (String.length s1)) (s1 +:+ s2) = s1.
Proof. unfold str_upto. rewrite Nat2Z.id. apply substring_take_app. Qed.

Lemma str_from_app (s1 s2 : string) :
  str_from (Z.of_nat (String.length s1)) (s1 +:+ s2) = s2.
Proof.
  unfold str_from. rewrite Nat2Z.id, substring_drop_app, str_length_app.
  replace (String.length s1 + String.length s2 - String.length s1)%nat
    with (String.length s2) by lia.
  apply substring_all.
Qed.

Lemma str_rfind_lower (c : ascii) (s : string) : (-1 ≤ str_rfind c s)%Z.
Proof.
  induction s as [|a s IH]; cbn [str_rfind]; [done|].
  destruct (Z.leb_spec 0 (str_rfind c s)); [lia|].
  destruct (Ascii.eqb a c); lia.
Qed.

Lemma str_rfind_app_present (c : ascii) (s1 s2 : string) :
  (0 ≤ str_rfind c s2)%Z →
  str_rfind c (s1 +:+ s2) = (Z.of_nat (String.length s1) + str_rfind c s2)%Z.
Proof.
  intros Hfound. induction s1 as [|a s1 IH]; [by rewrite Z.add_0_l|].
  rewrite str_app_cons. cbn [str_rfind String.length]. rewrite IH.
  destruct (Z.leb_spec 0 (Z.of_nat (String.length s1) + str_rfind c s2)); lia.
Qed.

Lemma str_rfind_app_absent (c : ascii) (s1 s2 : string) :
  str_rfind c s2 = (-1)%Z → str_rfind c (s1 +:+ s2) = str_rfind c s1.
Proof.
  intros Habsent. induction s1 as [|a s1 IH]; [done|].
  rewrite str_app_cons. cbn [str_rfind]. by rewrite IH.
Qed.

Lemma str_rfind_first (c : ascii) (s : string) :
  str_rfind c s = (-1)%Z → str_rfind c (String c s) = 0%Z.
Proof.
  intros Habsent. cbn [str_rfind]. rewrite Habsent.
  by rewrite (proj2 (Ascii.eqb_eq c c)).
Qed.

Lemma str_all_app (c : ascii) (s1 s2 : string) :
  str_all c (s1 +:+ s2) = str_all c s1 && str_all c s2.
Proof.
  induction s1 as [|a s1 IH]; [done|].
  rewrite str_app_cons. cbn [str_all]. by rewrite IH, andb_assoc.
Qed.

Lemma str_rstrip_all (c : ascii) (s : string) :
  str_all c s = true → str_rstrip c s = "".
Proof.
  induction s as [|a s IH]; [done|]. cbn [str_all str_rstrip].
  intros [Ha Hs]%andb_true_iff. by rewrite IH, Ha.
Qed.

Lemma str_rstrip_snoc (c : ascii) (s : string) :
  str_rstrip c (s +:+ String c "") = str_rstrip c s.
Proof.
  induction s as [|a s IH].
  - change (str_rstrip c (String c "") = ""). cbn [str_rstrip].
    by rewrite (proj2 (Ascii.eqb_eq c c)).
  - rewrite str_app_cons. cbn [str_rstrip]. by rewrite IH.
Qed.

(** Where C8 does hold: when the path has a directory part -- a non-empty
    [dir] that does not end in a slash, then a slash, then a file name
    without slashes -- the output file is in [dir] and is named after the
    file name without its extension. *)
Lemma jsonl_path_in_directory (dir file : string) :
  dir ≠ "" → str_rstrip "/" dir = dir → str_rfind "/" file = (-1)%Z →
  os_path_dirname (dir +:+ "/" +:+ file) = dir ∧
  os_path_basename (dir +:+ "/" +:+ file) = file ∧
  jsonl_path (dir +:+ "/" +:+ file)
    = dir +:+ "/" +:+ (os_path_splitext file).1 +:+ ".jsonl".
Proof.
  intros Hdir Hstrip Hfile.
  assert (str_rfind "/" (dir +:+ "/" +:+ file) + 1
          = Z.of_nat (String.length (dir +:+ "/")))%Z as Hsep.
  { rewrite str_rfind_app_present.
    - change ("/" +:+ file) with (String "/" file).
      rewrite str_rfind_first, str_length_app by done. cbn [String.length]. lia.
    - change ("/" +:+ file) with (String "/" file). by rewrite str_rfind_first. }
  assert (str_all "/" dir = false) as Hnotall.
  { destruct (str_all "/" dir) eqn:Hall; [|done].
    apply str_rstrip_all in Hall. congruence. }
  assert (os_path_dirname (dir +:+ "/" +:+ file) = dir) as Hdirname.
  { unfold os_path_dirname. rewrite Hsep, <- str_app_assoc, str_upto_app.
    rewrite str_all_app, Hnotall. cbn [andb negb].
    destruct dir as [|a dir]; [done|]. rewrite str_app_cons.
    cbn [String.eqb negb andb]. rewrite <- str_app_cons.
    by rewrite str_rstrip_snoc. }
  assert (os_path_basename (dir +:+ "/" +:+ file) = file) as Hbase.
  { unfold os_path_basename. by rewrite Hsep, <- str_app_assoc, str_from_app. }
  split_and!; [done|done|].
  unfold jsonl_path. by rewrite Hdirname, Hbase.
Qed.

Lemma os_path_splitext_extension (stem ext : string) :
  str_rfind "/" (stem +:+ "." +:+ ext) = (-1)%Z →
  str_rfind "." ext = (-1)%Z →
  str_all "." stem = false →
  os_path_splitext (stem +:+ "." +:+ ext) = (stem, "." +:+ ext).
Proof.
  intros Hsep Hext Hstem. unfold os_path_splitext. rewrite Hsep.
  assert (str_rfind "." (stem +:+ "." +:+ ext) = Z.of_nat (String.length stem)) as ->.
  { rewrite str_rfind_app_present.
    - change ("." +:+ ext) with (String "." ext). rewrite str_rfind_first by done. lia.
    - change ("." +:+ ext) with (String "." ext). by rewrite str_rfind_first. }
  destruct (Z.ltb_spec (-1) (Z.of_nat (String.length stem))); [|lia].
  replace (Z.to_nat (-1 + 1)) with 0%nat by lia.
  replace (Z.to_nat (Z.of_nat (String.length stem) - (-1 + 1)))
    with (String.length stem) by lia.
  rewrite substring_take_app, Hstem. cbn [andb negb].
  by rewrite str_upto_app, str_from_app.
Qed.

Lemma os_path_splitext_no_extension (file : string) :
  str_rfind "/" file = (-1)%Z → str_rfind "." file = (-1)%Z →
  os_path_splitext file = (file, "").
Proof. intros Hsep Hdot. unfold os_path_splitext. by rewrite Hsep, Hdot. Qed.

(** [dir/stem.ext] goes to [dir/stem.jsonl], [dir/name] to [dir/name.jsonl]. *)
Lemma jsonl_path_replaces_extension (dir stem ext : string) :
  dir ≠ "" → str_rstrip "/" dir = dir →
  str_rfind "/" (stem +:+ "." +:+ ext) = (-1)%Z →
  str_rfind "." ext = (-1)%Z →
  str_all "." stem = false →
  jsonl_path (dir +:+ "/" +:+ stem +:+ "." +:+ ext) = dir +:+ "/" +:+ stem +:+ ".jsonl".
Proof.
  intros Hdir Hstrip Hsep Hext Hstem.
  destruct (jsonl_path_in_directory dir (stem +:+ "." +:+ ext)) as (_ & _ & ->);
    [done..|].
  by rewrite os_path_splitext_extension.
Qed.

Lemma jsonl_path_adds_extension (dir name : string) :
  dir ≠ "" → str_rstrip "/" dir = dir →
  str_rfind "/" name = (-1)%Z → str_rfind "." name = (-1)%Z →
  jsonl_path (dir +:+ "/" +:+ name) = dir +:+ "/" +:+ name +:+ ".jsonl".
Proof.
  intros Hdir Hstrip Hsep Hdot.
  destruct (jsonl_path_in_directory dir name) as (_ & _ & ->); [done..|].
  by rewrite os_path_splitext_no_extension.
Qed.

Example jsonl_path_examples :
  jsonl_path "/tmp/eval_results/accuracy_trex.jsonl" = "/tmp/eval_results/accuracy_trex.jsonl" ∧
  jsonl_path "/tmp/eval_results/accuracy_trex.json" = "/tmp/eval_results/accuracy_trex.jsonl" ∧
  jsonl_path "/tmp/eval_results/accuracy_trex" = "/tmp/eval_results/accuracy_trex.jsonl" ∧
  jsonl_path "results/run.1/output.txt" = "results/run.1/output.jsonl".
Proof. by vm_compute. Qed.

(** * Further properties *)

(** ** Loops that raise *)

Lemma for_each_Ok_inv {A B} (body : A → result B) (xs : list A) (ys : list B) :
  for_each body xs = Ok ys → Forall2 (λ x y, body x = Ok y) xs ys.
Proof.
  revert ys. induction xs as [|x xs IH]; intros ys.
  - intros [= <-]. constructor.
  - intros (y & ys' & -> & Hx & Hxs)%for_each_cons_inv. constructor; [done|by apply IH].
Qed.

Lemma for_each_Ok_Forall {A B} (body : A → result B) (xs : list A) (ys : list B) :
  for_each body xs = Ok ys → Forall (λ x, ∃ y, body x = Ok y) xs.
Proof.
  intros H%for_each_Ok_inv. induction H; constructor; [by eexists|done].
Qed.

Lemma for_each_first_failure {A B} (body : A → result B) (done_ : list A) (x : A)
    (rest : list A) (e : exn) :
  Forall (λ a, ∃ b, body a = Ok b) done_ → body x = Raise e →
  for_each body (done_ ++ x :: rest) = Raise e.
Proof.
  intros Hdone Hx. induction Hdone as [|a done_ [b Hb] _ IH]; cbn [app for_each].
  - by rewrite Hx.
  - by rewrite Hb, bind_Ok, IH.
Qed.

Lemma for_fold_invariant {A S} (P : S → Prop) (body : S → A → result S)
    (xs : list A) (s s' : S) :
  (∀ s x s', P s → body s x = Ok s' → P s') →
  P s → for_fold body xs s = Ok s' → P s'.
Proof.
  intros Hbody. revert s. induction xs as [|x xs IH]; intros s Hs; cbn [for_fold].
  - by intros [= <-].
  - destruct (body s x) as [s1|] eqn:Hstep; [|done]. rewrite bind_Ok.
    apply IH. by eapply Hbody.
Qed.

(** ** [validate_dataset] *)

(** X1. [validate_dataset] accepts a dataset exactly when nothing is
    required, or the dataset has a schema and every required column is one
    of its columns.  With a schema it otherwise raises the client error
    whose message names the first required column that is missing; without
    a schema (the columns are [None]) the first membership test raises
    [TypeError]. *)
Theorem validate_dataset_spec (dataset : Dataset) (column_names : list string) :
  (validate_dataset dataset column_names = Ok ()
   ↔ column_names = [] ∨
     ∃ columns, ds_columns dataset = Some columns ∧
                Forall (λ column_name, column_name ∈ columns) column_names) ∧
  (∀ columns present missing rest,
     ds_columns dataset = Some columns →
     column_names = present ++ missing :: rest →
     Forall (λ column_name, column_name ∈ columns) present →
     missing ∉ columns →
     validate_dataset dataset column_names
       = Raise (EvalAlgorithmClientError
                  ("Missing required column: " +:+ missing +:+ ", for evaluate() method"))) ∧
  (ds_columns dataset = None → column_names ≠ [] →
   validate_dataset dataset column_names = Raise TypeError).
Proof.
  assert (∀ columns c, ds_columns dataset = Some columns →
            columns_contains c dataset ≫= (λ present, require present (missing_column_msg c))
            = require (bool_decide (c ∈ columns)) (missing_column_msg c)) as Hbody.
  { intros columns c Hcolumns. unfold columns_contains. by rewrite Hcolumns. }
  split_and!; [split|..].
  - unfold validate_dataset.
    destruct (for_each _ column_names) as [us|] eqn:Hloop; [|done]. intros _.
    destruct column_names as [|c names]; [by left|]. right.
    destruct (ds_columns dataset) as [columns|] eqn:Hcolumns.
    + exists columns. split; [done|].
      apply for_each_Ok_Forall in Hloop.
      eapply Forall_impl; [exact Hloop|]. cbn beta. intros c' [u Hu].
      rewrite (Hbody columns) in Hu by done. unfold require in Hu.
      destruct (bool_decide (c' ∈ columns)) eqn:Hc; [|done].
      by apply bool_decide_eq_true in Hc.
    + exfalso. cbn [for_each] in Hloop. unfold columns_contains in Hloop.
      by rewrite Hcolumns in Hloop.
  - intros [->|(columns & Hcolumns & Hall)]; [done|]. unfold validate_dataset.
    rewrite (for_each_Ok _ _ (map (λ _, ()) column_names)); [done|].
    apply Forall2_fmap_r, Forall_Forall2_diag.
    eapply Forall_impl; [exact Hall|]. cbn beta. intros c Hc.
    rewrite (Hbody columns) by done. unfold require. by rewrite bool_decide_eq_true_2.
  - intros columns present missing rest Hcolumns -> Hpresent Hmissing.
    unfold validate_dataset.
    rewrite (for_each_first_failure _ present missing rest
               (EvalAlgorithmClientError (missing_column_msg missing))); [done| |].
    + eapply Forall_impl; [exact Hpresent|]. cbn beta. intros c Hc. exists ().
      rewrite (Hbody columns) by done. unfold require. by rewrite bool_decide_eq_true_2.
    + rewrite (Hbody columns) by done. unfold require. by rewrite bool_decide_eq_false_2.
  - intros Hcolumns Hne. destruct column_names as [|c names]; [done|].
    unfold validate_dataset. cbn [for_each]. unfold columns_contains.
    by rewrite Hcolumns.
Qed.

(** ** Building and serializing records *)

Section PyDictMore.
Context {K V : Type} `{EqDecision K}.
Implicit Types (d : pydict K V) (key : K) (v : V).

Lemma dict_keys_set key v d k :
  k ∈ dict_keys (dict_set key v d) ↔ k = key ∨ k ∈ dict_keys d.
Proof.
  induction d as [|[k0 w] d IH]; cbn [dict_set].
  - cbn. rewrite list_elem_of_singleton, elem_of_nil. tauto.
  - destruct (decide (k0 = key)) as [->|Hne]; cbn [dict_keys fmap list_fmap fst] in *.
    + rewrite !elem_of_cons. tauto.
    + rewrite !elem_of_cons, IH. tauto.
Qed.

Lemma dict_set_wf key v d : dict_wf d → dict_wf (dict_set key v d).
Proof.
  unfold dict_wf. induction d as [|[k0 w] d IH]; cbn [dict_set].
  - intros _. cbn. apply NoDup_singleton.
  - cbn [dict_keys fmap list_fmap fst]. intros [Hk Hnd]%NoDup_cons.
    destruct (decide (k0 = key)) as [->|Hne]; cbn [dict_keys fmap list_fmap fst].
    + by apply NoDup_cons.
    + apply NoDup_cons. split; [|by apply IH].
      intros [?|?]%dict_keys_set; done.
Qed.

Lemma dict_get_snoc_fresh key v d :
  key ∉ dict_keys d → dict_get key (d ++ [(key, v)]) = Some v.
Proof.
  induction d as [|[k w] d IH]; cbn [app dict_get].
  - intros _. by rewrite decide_True.
  - intros [Hne Hnotin]%not_elem_of_cons. rewrite decide_False by done. by apply IH.
Qed.

Lemma dict_get_filter_key (P : K * V → Prop) `{∀ item, Decision (P item)} key d :
  (∀ v, P (key, v)) → dict_get key (filter P d) = dict_get key d.
Proof.
  intros HP. induction d as [|[k w] d IH]; [done|].
  destruct (decide (P (k, w))) as [Hk|Hk].
  - rewrite filter_cons_True by done. cbn [dict_get]. by rewrite IH.
  - rewrite filter_cons_False by done. cbn [dict_get].
    rewrite decide_False; [done|]. intros ->. by apply Hk.
Qed.
End PyDictMore.

Lemma filter_ext_elem {A} (P Q : A → Prop) `{∀ x, Decision (P x)} `{∀ x, Decision (Q x)}
    (l : list A) :
  (∀ x, x ∈ l → P x ↔ Q x) → filter P l = filter Q l.
Proof.
  induction l as [|x l IH]; [done|]. intros Hext.
  assert (filter P l = filter Q l) as Hl by (apply IH; intros y Hy; apply Hext; by right).
  destruct (decide (P x)) as [HP|HP].
  - rewrite !filter_cons_True; [by rewrite Hl| |done]. apply Hext; [left|done].
  - rewrite !filter_cons_False; [done| |done]. intros HQ. apply HP, Hext; [left|done].
Qed.

Section RecordMore.
Variable DATASET_COLUMNS : list string.

(** X2. The constructor of [EvalOutputRecord] succeeds exactly when every
    key of [dataset_columns] is on the allow-list, and then stores its
    arguments unchanged; otherwise [__post_init__] raises the internal error
    that names the first key, in dictionary order, that is not allowed. *)
Theorem EvalOutputRecord_init_spec (scores : list EvalScore.t)
    (dataset_columns : pydict string pyval) :
  (Forall (λ col, col ∈ DATASET_COLUMNS) (dict_keys dataset_columns) →
     EvalOutputRecord_init DATASET_COLUMNS scores dataset_columns
       = Ok (EvalOutputRecord.mk scores dataset_columns)) ∧
  (∀ rec, EvalOutputRecord_init DATASET_COLUMNS scores dataset_columns = Ok rec →
     Forall (λ col, col ∈ DATASET_COLUMNS) (dict_keys dataset_columns)) ∧
  (∀ allowed col rest,
     dict_keys dataset_columns = allowed ++ col :: rest →
     Forall (λ col, col ∈ DATASET_COLUMNS) allowed →
     col ∉ DATASET_COLUMNS →
     EvalOutputRecord_init DATASET_COLUMNS scores dataset_columns
       = Raise (EvalAlgorithmInternalError
                  ("Attempting to initialize an EvalOutputRecord with invalid non-score column "
                   +:+ col +:+ "."))).
Proof.
  split_and!.
  - apply EvalOutputRecord_init_allowed.
  - intros rec Hrec. by apply EvalOutputRecord_init_rejected in Hrec as [_ ?].
  - intros allowed col rest Hkeys Hallowed Hcol. unfold EvalOutputRecord_init.
    rewrite Hkeys.
    erewrite for_each_first_failure; [done| |].
    + eapply Forall_impl; [exact Hallowed|]. cbn beta. intros c Hc. exists ().
      unfold assert_condition. by rewrite bool_decide_eq_true_2.
    + unfold assert_condition. by rewrite bool_decide_eq_false_2.
Qed.

Lemma from_row_body_keeps (score_names : list string)
    (st st' : pydict string pyval * list EvalScore.t) (item : string * pyval) :
  from_row_state_ok DATASET_COLUMNS score_names st →
  from_row_body DATASET_COLUMNS score_names st item = Ok st' →
  from_row_state_ok DATASET_COLUMNS score_names st'.
Proof.
  destruct st as [cols scs], item as [key v]. intros (Hcols & Hwf & Hscs).
  cbn [from_row_body fst snd] in *.
  destruct (decide (key ∈ score_names)) as [Hscore|Hscore].
  - rewrite bool_decide_eq_true_2 by done. cbn [negb].
    destruct v as [| |q]; try done. intros [= <-]. split_and!; [done|done|].
    cbn [snd]. apply Forall_app. split; [done|]. by apply Forall_singleton.
  - rewrite bool_decide_eq_false_2 by done. cbn [negb].
    destruct (decide (key ∈ DATASET_COLUMNS)) as [Hcol|Hcol].
    + rewrite bool_decide_eq_true_2 by done. intros [= <-]. split_and!; cbn [fst snd].
      * apply Forall_forall. intros k [->|Hk]%dict_keys_set; [done|].
        rewrite Forall_forall in Hcols. by apply Hcols.
      * by apply dict_set_wf.
      * done.
    + rewrite bool_decide_eq_false_2 by done. by intros [= <-].
Qed.

(** The loop stops only at a score name that holds no number. *)
Lemma from_row_loop_raises (score_names : list string) (row : pydict string pyval)
    (st : pydict string pyval * list EvalScore.t) (e : exn) :
  for_fold (from_row_body DATASET_COLUMNS score_names) row st = Raise e →
  e = AssertionError ∧
  Exists (λ item, item.1 ∈ score_names ∧ is_numeric item.2 = false) row.
Proof.
  revert st. induction row as [|[key v] row IH]; intros [cols scs]; [done|].
  cbn [for_fold].
  destruct (from_row_body DATASET_COLUMNS score_names (cols, scs) (key, v))
    as [st'|e'] eqn:Hbody.
  - rewrite bind_Ok. intros [-> Hex]%IH. split; [done|]. by right.
  - cbn [from_row_body] in Hbody.
    destruct (decide (key ∈ score_names)) as [Hscore|Hscore].
    + rewrite bool_decide_eq_true_2 in Hbody by done. cbn [negb] in Hbody.
      destruct v as [| |q]; try done; injection Hbody as <-; intros [= <-];
        (split; [done|left; by split]).
    + rewrite bool_decide_eq_false_2 in Hbody by done. cbn [negb] in Hbody.
      by destruct (bool_decide (key ∈ DATASET_COLUMNS)).
Qed.

Lemma from_row_loop_returns (score_names : list string) (row : pydict string pyval)
    (st st' : pydict string pyval * list EvalScore.t) :
  for_fold (from_row_body DATASET_COLUMNS score_names) row st = Ok st' →
  Forall (λ item, item.1 ∈ score_names → is_numeric item.2 = true) row.
Proof.
  revert st. induction row as [|[key v] row IH]; intros [cols scs]; [constructor|].
  cbn [for_fold].
  destruct (from_row_body DATASET_COLUMNS score_names (cols, scs) (key, v))
    as [st1|] eqn:Hbody; [|done].
  rewrite bind_Ok. intros Hrest. constructor; [|by eapply IH].
  cbn [fst snd]. intros Hscore. cbn [from_row_body] in Hbody.
  rewrite bool_decide_eq_true_2 in Hbody by done. by destruct v.
Qed.

Lemma from_row_state_initial (score_names : list string) :
  from_row_state_ok DATASET_COLUMNS score_names ([], []).
Proof. split_and!; cbn; [constructor|apply NoDup_nil_2|constructor]. Qed.

Lemma from_row_Raise_inv (row : pydict string pyval) (score_names : list string) (e : exn) :
  from_row DATASET_COLUMNS row score_names = Raise e →
  e = AssertionError ∧
  Exists (λ item, item.1 ∈ score_names ∧ is_numeric item.2 = false) row.
Proof.
  unfold from_row.
  destruct (for_fold _ row ([], [])) as [st|e'] eqn:Hloop.
  - rewrite bind_Ok.
    apply (for_fold_invariant (from_row_state_ok DATASET_COLUMNS score_names))
      in Hloop as (Hcols & _).
    + rewrite EvalOutputRecord_init_allowed; [done|].
      eapply Forall_impl; [exact Hcols|]. by intros col [? _].
    + intros s x s'. by apply from_row_body_keeps.
    + apply from_row_state_initial.
  - intros [= <-]. by eapply from_row_loop_raises.
Qed.

Lemma from_row_Ok_inv (row : pydict string pyval) (score_names : list string)
    (rec : EvalOutputRecord.t) :
  from_row DATASET_COLUMNS row score_names = Ok rec →
  Forall (λ item, item.1 ∈ score_names → is_numeric item.2 = true) row.
Proof.
  unfold from_row.
  destruct (for_fold _ row ([], [])) as [st|] eqn:Hloop; [|done]. intros _.
  by eapply from_row_loop_returns.
Qed.

(** X3. [from_row] fails exactly on the rows that hold something other than
    a number under one of the score names, and then always with
    [AssertionError]: the check of [__post_init__] never fires on a record
    that [from_row] builds, whatever the row. *)
Theorem from_row_raises_iff (row : pydict string pyval) (score_names : list string) :
  (∀ e, from_row DATASET_COLUMNS row score_names = Raise e → e = AssertionError) ∧
  (from_row DATASET_COLUMNS row score_names = Raise AssertionError
   ↔ Exists (λ item, item.1 ∈ score_names ∧ is_numeric item.2 = false) row).
Proof.
  split; [by intros e [-> _]%from_row_Raise_inv|]. split.
  - by intros [_ ?]%from_row_Raise_inv.
  - intros Hbad. destruct (from_row DATASET_COLUMNS row score_names) as [rec|e] eqn:Hrow.
    + exfalso. apply from_row_Ok_inv in Hrow.
      apply Exists_exists in Hbad as (item & Hin & Hscore & Hnum).
      rewrite Forall_forall in Hrow. specialize (Hrow item Hin Hscore). congruence.
    + by destruct (from_row_Raise_inv _ _ _ Hrow) as [-> _].
Qed.

(** X4. Every record that [from_row] returns is well formed: its dataset
    columns are a dictionary (no key twice) whose keys are all on the
    allow-list and none of them a score name, and each of its scores is
    named by one of the score names.  This needs nothing of the row. *)
Theorem from_row_record_well_formed (row : pydict string pyval)
    (score_names : list string) (rec : EvalOutputRecord.t) :
  from_row DATASET_COLUMNS row score_names = Ok rec →
  dict_wf (EvalOutputRecord.dataset_columns rec) ∧
  Forall (λ col, col ∈ DATASET_COLUMNS ∧ (col ∉ score_names))
         (dict_keys (EvalOutputRecord.dataset_columns rec)) ∧
  Forall (λ s, EvalScore.name s ∈ score_names) (EvalOutputRecord.scores rec).
Proof.
  unfold from_row.
  destruct (for_fold _ row ([], [])) as [st|] eqn:Hloop; [|done]. rewrite bind_Ok.
  intros [-> _]%EvalOutputRecord_init_rejected.
  apply (for_fold_invariant (from_row_state_ok DATASET_COLUMNS score_names)) in Hloop
    as (Hcols & Hwf & Hscs); [done|intros s x s'; by apply from_row_body_keeps|].
  apply from_row_state_initial.
Qed.

End RecordMore.

Section SerializeMore.
Variable DATASET_COLUMNS : list string.

Lemma from_row_result (row : pydict string pyval) (score_names : list string) :
  dict_wf row →
  Forall (λ item, item.1 ∈ score_names → is_numeric item.2 = true) row →
  ∃ scs,
    from_row DATASET_COLUMNS row score_names
      = Ok (EvalOutputRecord.mk scs
              (filter (λ item, (item.1 ∉ score_names) ∧ (item.1 ∈ DATASET_COLUMNS)) row)) ∧
    map (λ s, (EvalScore.name s, VNum (EvalScore.value s))) scs
      = filter (λ item, item.1 ∈ score_names) row.
Proof.
  intros Hwf Hnum.
  destruct (from_row_loop DATASET_COLUMNS score_names row [] []) as (scs & Hloop & Hback).
  - exact Hwf.
  - intros key v Hin. rewrite Forall_forall in Hnum. exact (Hnum (key, v) Hin).
  - exists scs. split; [|exact Hback].
    unfold from_row. rewrite Hloop, bind_Ok. cbn [fst snd app].
    apply EvalOutputRecord_init_allowed.
    apply Forall_forall. intros col Hcol.
    apply list_elem_of_fmap in Hcol as ([k v] & -> & Hin).
    by apply list_elem_of_filter in Hin as [[_ Hin] _].
Qed.

(** X5. Reading a row with [from_row] and serializing the record with
    [_to_dict] gives an object whose keys are the allow-listed columns that
    the row has and that are no score names, in allow-list order, then
    ["scores"]; each of those columns carries the row's value, and
    ["scores"] carries one [{name, value}] object per score column of the
    row, in row order. *)
Theorem from_row_to_dict (row : pydict string pyval) (score_names : list string) :
  NoDup DATASET_COLUMNS → "scores" ∉ DATASET_COLUMNS →
  dict_wf row →
  Forall (λ item, item.1 ∈ score_names → is_numeric item.2 = true) row →
  ∃ rec,
    from_row DATASET_COLUMNS row score_names = Ok rec ∧
    dict_keys (_to_dict DATASET_COLUMNS rec)
      = filter (λ col, col ∈ dict_keys row ∧ (col ∉ score_names)) DATASET_COLUMNS
        ++ ["scores"] ∧
    (∀ col, col ∈ DATASET_COLUMNS → col ∉ score_names →
       dict_get col (_to_dict DATASET_COLUMNS rec) = JValue <$> dict_get col row) ∧
    dict_get "scores" (_to_dict DATASET_COLUMNS rec)
      = Some (JObjects (map (λ item, [("name", VStr item.1); ("value", item.2)])
                            (filter (λ item, item.1 ∈ score_names) row))).
Proof.
  intros Hnd Hscores Hwf Hnum.
  destruct (from_row_result row score_names Hwf Hnum) as (scs & Hrec & Hback).
  eexists. split; [exact Hrec|].
  rewrite to_dict_unfold by done. cbn [EvalOutputRecord.dataset_columns EvalOutputRecord.scores].
  set (cols := filter (λ item, (item.1 ∉ score_names) ∧ (item.1 ∈ DATASET_COLUMNS)) row).
  assert (∀ col, col ∈ DATASET_COLUMNS →
            col ∈ dict_keys cols ↔ col ∈ dict_keys row ∧ (col ∉ score_names)) as Hkeys.
  { intros col Hcol. unfold cols, dict_keys. rewrite !list_elem_of_fmap. split.
    - intros ([k v] & -> & [[Hk _] Hin]%list_elem_of_filter). split; [|done].
      exists (k, v). done.
    - intros [([k v] & -> & Hin) Hk]. exists (k, v). split; [done|].
      by apply list_elem_of_filter. }
  split_and!.
  - rewrite dict_keys_app, recognized_items_keys. f_equal.
    by apply filter_ext_elem.
  - intros col Hcol Hnot. rewrite dict_get_snoc_ne by (intros <-; done).
    rewrite recognized_items_get by done. f_equal.
    unfold cols. by apply dict_get_filter_key.
  - rewrite dict_get_snoc_fresh.
    + do 2 f_equal. rewrite <- Hback, <- list_fmap_compose. done.
    + rewrite recognized_items_keys. intros [_ ?]%list_elem_of_filter. done.
Qed.

End SerializeMore.

(** ** Saving a dataset *)


Section SaveMore.
Variable DATASET_COLUMNS : list string.
Variable EVAL_OUTPUT_RECORDS_BATCH_SIZE : nat.
Variable json_dumps : pydict string json_value → string.
Variable open_w : string → result unit.




(** X8. As long as no batch fills up -- the batch size is 0, or larger than
    the number of rows -- everything is written by the final write: the
    rows joined by newlines, with no newline after the last one. *)
Theorem write_records_single_write (rows : list string) :
  EVAL_OUTPUT_RECORDS_BATCH_SIZE = 0%nat
    ∨ (length rows < EVAL_OUTPUT_RECORDS_BATCH_SIZE)%nat →
  write_batches EVAL_OUTPUT_RECORDS_BATCH_SIZE rows [] "" = (rows, "") ∧
  write_records EVAL_OUTPUT_RECORDS_BATCH_SIZE rows = String.concat newline rows.
Proof.
  intros Hsize.
  assert (∀ records fh,
            EVAL_OUTPUT_RECORDS_BATCH_SIZE = 0%nat
              ∨ (length records + length rows < EVAL_OUTPUT_RECORDS_BATCH_SIZE)%nat →
            write_batches EVAL_OUTPUT_RECORDS_BATCH_SIZE rows records fh
              = (records ++ rows, fh)) as Hloop.
  { clear Hsize. induction rows as [|r rows IH]; intros records fh Hsize.
    - cbn. by rewrite app_nil_r.
    - cbn [write_batches].
      destruct (Nat.eqb_spec (length (records ++ [r])) EVAL_OUTPUT_RECORDS_BATCH_SIZE)
        as [Hfull|_].
      + rewrite length_app in Hfull. cbn [length] in *. lia.
      + rewrite IH; [by rewrite <- app_assoc|].
        rewrite length_app. cbn [length] in *. lia. }
  assert (write_batches EVAL_OUTPUT_RECORDS_BATCH_SIZE rows [] "" = (rows, "")) as Hall.
  { apply (Hloop [] ""). cbn [length]. lia. }
  split; [exact Hall|]. unfold write_records. rewrite Hall. by destruct rows.
Qed.

End SaveMore.

(** ** Output paths *)

Lemma str_rfind_head_absent (c a : ascii) (s : string) :
  str_rfind c (String a s) = (-1)%Z → Ascii.eqb a c = false ∧ str_rfind c s = (-1)%Z.
Proof.
  cbn [str_rfind]. pose proof (str_rfind_lower c s) as Hlow.
  destruct (Z.leb_spec 0 (str_rfind c s)); [lia|].
  destruct (Ascii.eqb a c); [lia|]. intros _. split; [done|lia].
Qed.

Lemma str_rfind_app_both_absent (c : ascii) (s1 s2 : string) :
  str_rfind c s1 = (-1)%Z → str_rfind c s2 = (-1)%Z → str_rfind c (s1 +:+ s2) = (-1)%Z.
Proof. intros H1 H2. by rewrite str_rfind_app_absent. Qed.

Lemma str_startswith_absent (c : ascii) (s t : string) :
  str_rfind c s = (-1)%Z → str_startswith c t = false → str_startswith c (s +:+ t) = false.
Proof.
  intros Hs Ht. destruct s as [|a s]; [done|].
  rewrite str_app_cons. cbn [str_startswith]. by apply str_rfind_head_absent in Hs as [? _].
Qed.

Lemma str_endswith_stripped (c : ascii) (s : string) :
  s ≠ "" → str_rstrip c s = s → str_endswith c s = false.
Proof.
  induction s as [|a s IH]; [done|]. intros _ Hstrip.
  destruct s as [|a' s].
  - cbn in *. by destruct (Ascii.eqb a c).
  - change (str_endswith c (String a (String a' s)))
      with (str_endswith c (String a' s)).
    apply IH; [done|].
    change (str_rstrip c (String a (String a' s)))
      with (match str_rstrip c (String a' s) with
            | EmptyString => if Ascii.eqb a c then EmptyString else String a EmptyString
            | t => String a t
            end) in Hstrip.
    destruct (str_rstrip c (String a' s)) as [|b t].
    + by destruct (Ascii.eqb a c).
    + congruence.
Qed.

Lemma str_endswith_snoc (c : ascii) (s : string) :
  str_endswith c (s +:+ String c "") = true.
Proof.
  induction s as [|a s IH].
  - change (str_endswith c (String c "") = true). cbn. apply Ascii.eqb_refl.
  - rewrite str_app_cons. cbn [str_endswith].
    destruct (s +:+ String c "") eqn:Hs; [by destruct s|]. exact IH.
Qed.

(** For a path without any slash the directory part is empty and the
    file is opened under the root directory. *)
Lemma jsonl_path_bare (file : string) :
  str_rfind "/" file = (-1)%Z →
  os_path_dirname file = "" ∧ os_path_basename file = file ∧
  jsonl_path file = "/" +:+ (os_path_splitext file).1 +:+ ".jsonl".
Proof.
  intros Hsep.
  assert (os_path_dirname file = "") as Hdir.
  { unfold os_path_dirname. rewrite Hsep. change (-1 + 1)%Z with 0%Z.
    unfold str_upto. change (Z.to_nat 0) with 0%nat. by destruct file. }
  assert (os_path_basename file = file) as Hbase.
  { unfold os_path_basename. rewrite Hsep. change (-1 + 1)%Z with 0%Z.
    unfold str_from. change (Z.to_nat 0) with 0%nat.
    rewrite Nat.sub_0_r. apply substring_all. }
  split_and!; [done|done|]. unfold jsonl_path. by rewrite Hdir, Hbase.
Qed.

(** X9. A path without a slash never stays where it points: for every bare
    file name, [save_dataset] opens its file directly under the root
    directory, although the directory part of the path is empty. *)
Theorem jsonl_path_bare_goes_to_root (file : string) :
  str_rfind "/" file = (-1)%Z →
  os_path_dirname file = "" ∧
  jsonl_path file = "/" +:+ (os_path_splitext file).1 +:+ ".jsonl" ∧
  str_startswith "/" (jsonl_path file) = true ∧
  jsonl_path file ≠ (os_path_splitext file).1 +:+ ".jsonl".
Proof.
  intros Hsep. destruct (jsonl_path_bare file Hsep) as (Hdir & _ & Hpath).
  split_and!; [done|done|by rewrite Hpath|].
  rewrite Hpath. intros Heq. apply (f_equal String.length) in Heq.
  change ("/" +:+ (os_path_splitext file).1 +:+ ".jsonl")
    with (String "/" ((os_path_splitext file).1 +:+ ".jsonl")) in Heq.
  cbn [String.length] in Heq. lia.
Qed.

Lemma generated_file_name_facts (eval_name dataset_name : string) :
  str_rfind "/" eval_name = (-1)%Z → str_rfind "/" dataset_name = (-1)%Z →
  let stem := eval_name +:+ "_" +:+ dataset_name in
  eval_name +:+ "_" +:+ dataset_name +:+ ".jsonl" = stem +:+ "." +:+ "jsonl" ∧
  str_rfind "/" (stem +:+ "." +:+ "jsonl") = (-1)%Z ∧
  str_all "." stem = false ∧
  str_startswith "/" (stem +:+ "." +:+ "jsonl") = false.
Proof.
  intros He Hd stem. subst stem. split_and!.
  - by rewrite !str_app_assoc.
  - rewrite !str_app_assoc.
    apply str_rfind_app_both_absent; [done|].
    apply str_rfind_app_both_absent; [reflexivity|].
    apply str_rfind_app_both_absent; [done|reflexivity].
  - rewrite str_all_app. destruct (str_all "." eval_name); [|done].
    by rewrite str_all_app.
  - rewrite str_app_assoc. apply str_startswith_absent; [done|reflexivity].
Qed.

(** X10. The path that [generate_output_dataset_path] builds is exactly
    where [save_dataset] then writes, provided the parent directory is not
    empty: given as [dir] or as [dir/], with names free of slashes, the
    result is [dir/<eval_name>_<dataset_name>.jsonl] and [save_dataset]
    leaves it as it is.  With an empty parent directory the generated path
    is relative and [save_dataset] writes under the root instead. *)
Theorem generate_output_dataset_path_saved (dir eval_name dataset_name : string) :
  dir ≠ "" → str_rstrip "/" dir = dir →
  str_rfind "/" eval_name = (-1)%Z → str_rfind "/" dataset_name = (-1)%Z →
  let file_name := eval_name +:+ "_" +:+ dataset_name +:+ ".jsonl" in
  generate_output_dataset_path dir eval_name dataset_name = dir +:+ "/" +:+ file_name ∧
  generate_output_dataset_path (dir +:+ "/") eval_name dataset_name
    = dir +:+ "/" +:+ file_name ∧
  jsonl_path (dir +:+ "/" +:+ file_name) = dir +:+ "/" +:+ file_name ∧
  generate_output_dataset_path "" eval_name dataset_name = file_name ∧
  jsonl_path file_name = "/" +:+ file_name.
Proof.
  intros Hdir Hstrip He Hd file_name.
  destruct (generated_file_name_facts eval_name dataset_name He Hd)
    as (Hname & Hsep & Hdots & Hstart).
  fold file_name in Hname. rewrite <- Hname in Hsep, Hstart.
  split_and!.
  - unfold generate_output_dataset_path, os_path_join. fold file_name.
    rewrite Hstart, str_endswith_stripped by done.
    by destruct dir.
  - unfold generate_output_dataset_path, os_path_join. fold file_name.
    rewrite Hstart, str_endswith_snoc, orb_true_r. by rewrite str_app_assoc.
  - rewrite Hname.
    rewrite (jsonl_path_replaces_extension dir (eval_name +:+ "_" +:+ dataset_name) "jsonl");
      [reflexivity|done|done| |reflexivity|done].
    by rewrite <- Hname.
  - unfold generate_output_dataset_path, os_path_join. fold file_name.
    by rewrite Hstart.
  - destruct (jsonl_path_bare file_name Hsep) as (_ & _ & ->).
    rewrite Hname, os_path_splitext_extension; [done| |done|done].
    by rewrite <- Hname.
Qed.

(** ** More on [verify_model_determinism] *)

Section DeterminismMore.
Variable NUM_ROWS_DETERMINISTIC : nat.
Variable model_state : Type.
Variable predict :
  model_state → pyval → (option string * option Qc) * model_state.

Lemma verify_rows_agree_app (prompt_column_name : string)
    (rows rest : list (pydict string pyval)) (prompts : list pyval)
    (model : model_state) (calls : list pyval) :
  for_each (λ row, row_getitem row prompt_column_name) rows = Ok prompts →
  Forall (λ a, a.1 = a.2) (ask_twice model_state predict model prompts) →
  ∃ model',
    verify_rows model_state predict prompt_column_name (rows ++ rest) model calls
      = verify_rows model_state predict prompt_column_name rest model'
          (calls ++ each_twice prompts).
Proof.
  revert prompts model calls.
  induction rows as [|row rows IH]; intros prompts model calls Hprompts Hagree.
  - injection Hprompts as <-. exists model. cbn. by rewrite app_nil_r.
  - apply for_each_cons_inv in Hprompts as (p & ps & -> & Hp & Hps).
    cbn [app verify_rows ask_twice] in *. rewrite Hp, bind_Ok.
    destruct (predict model p) as [out1 m1]. destruct (predict m1 p) as [out2 m2].
    apply Forall_cons in Hagree as [Heq Hagree]. cbn [fst snd] in Heq.
    rewrite bool_decide_eq_true_2 by done. cbn [negb].
    destruct (IH ps m2 (calls ++ [p; p]) Hps Hagree) as [model' Hrun].
    exists model'. rewrite Hrun. by rewrite <- app_assoc.
Qed.

Lemma verify_rows_false_app (prompt_column_name : string)
    (rows rest : list (pydict string pyval)) (model model' : model_state)
    (calls calls' : list pyval) :
  verify_rows model_state predict prompt_column_name rows model calls
    = Ok (false, calls', model') →
  verify_rows model_state predict prompt_column_name (rows ++ rest) model calls
    = Ok (false, calls', model').
Proof.
  revert model calls. induction rows as [|row rows IH]; intros model calls; [done|].
  cbn [app verify_rows].
  destruct (row_getitem row prompt_column_name) as [p|]; [|done]. rewrite !bind_Ok.
  destruct (predict model p) as [out1 m1]. destruct (predict m1 p) as [out2 m2].
  destruct (negb (bool_decide (out2.1 = out1.1))); [done|]. apply IH.
Qed.

(** X11. A model whose output depends on the prompt alone passes the check:
    on a dataset whose examined rows have the prompt column the answer is
    [True], and the model is left in the state that two calls for each of
    those rows, in row order, produce -- whatever else its state records. *)
Theorem verify_model_determinism_deterministic (model : model_state)
    (dataset : Dataset) (prompt_column_name : string) (prompts : list pyval) :
  (∀ m m' prompt, (predict m prompt).1.1 = (predict m' prompt).1.1) →
  for_each (λ row, row_getitem row prompt_column_name)
           (take NUM_ROWS_DETERMINISTIC (ds_rows dataset)) = Ok prompts →
  verify_model_determinism NUM_ROWS_DETERMINISTIC model_state predict
      model dataset prompt_column_name
    = Ok (true, each_twice prompts,
          after_calls model_state predict model (each_twice prompts)) ∧
  length (each_twice prompts)
    = (2 * Nat.min NUM_ROWS_DETERMINISTIC (length (ds_rows dataset)))%nat.
Proof.
  intros Hdet Hprompts.
  assert (∀ m ps, Forall (λ a, a.1 = a.2) (ask_twice model_state predict m ps)) as Hagree.
  { intros m ps. revert m. induction ps as [|p ps IH]; intros m; [constructor|].
    cbn [ask_twice]. pose proof (Hdet m (predict m p).2 p) as Hsame.
    destruct (predict m p) as [out1 m1]. cbn [snd fst] in Hsame.
    destruct (predict m1 p) as [out2 m2]. constructor; [done|apply IH]. }
  destruct (verify_rows_spec model_state predict prompt_column_name _ prompts model []
              Hprompts) as (b & calls & Hrun & Hfind).
  destruct (list_find _ _) as [[i a]|] eqn:Hf.
  - apply list_find_Some in Hf as (Hi & Hne & _). exfalso.
    apply list_elem_of_lookup_2 in Hi. specialize (Hagree model prompts).
    rewrite Forall_forall in Hagree. by apply Hne, Hagree.
  - destruct Hfind as [-> ->]. split; [exact Hrun|].
    rewrite each_twice_length, (for_each_length _ _ _ Hprompts), length_take. done.
Qed.

(** X12. When the rows before it gave matching outputs, an examined row
    without the prompt column makes the check raise [KeyError]. *)
Theorem verify_model_determinism_missing_prompt (model : model_state)
    (dataset : Dataset) (prompt_column_name : string)
    (before after : list (pydict string pyval)) (row : pydict string pyval)
    (prompts : list pyval) :
  ds_rows dataset = before ++ row :: after →
  (length before < NUM_ROWS_DETERMINISTIC)%nat →
  for_each (λ row, row_getitem row prompt_column_name) before = Ok prompts →
  Forall (λ a, a.1 = a.2) (ask_twice model_state predict model prompts) →
  dict_get prompt_column_name row = None →
  verify_model_determinism NUM_ROWS_DETERMINISTIC model_state predict
      model dataset prompt_column_name
    = Raise (KeyError (VStr prompt_column_name)).
Proof.
  intros Hrows Hlen Hprompts Hagree Hmissing.
  unfold verify_model_determinism, Dataset_limit. cbn [ds_rows]. rewrite Hrows.
  rewrite take_app_ge by lia.
  destruct (NUM_ROWS_DETERMINISTIC - length before)%nat as [|n] eqn:Hn; [lia|].
  cbn [take].
  destruct (verify_rows_agree_app prompt_column_name before (row :: take n after)
              prompts model [] Hprompts Hagree) as [model' ->].
  cbn [verify_rows]. unfold row_getitem. by rewrite Hmissing.
Qed.

(** X13. Once two outputs differ nothing after that row matters: if the
    check answers [False] on a dataset, it gives the same answer, after the
    same calls, on that dataset followed by any further rows -- be they rows
    without a prompt column. *)
Theorem verify_model_determinism_stops (model model' : model_state)
    (dataset dataset' : Dataset) (prompt_column_name : string)
    (calls : list pyval) (more : list (pydict string pyval)) :
  verify_model_determinism NUM_ROWS_DETERMINISTIC model_state predict
      model dataset prompt_column_name = Ok (false, calls, model') →
  ds_rows dataset' = ds_rows dataset ++ more →
  verify_model_determinism NUM_ROWS_DETERMINISTIC model_state predict
      model dataset' prompt_column_name = Ok (false, calls, model').
Proof.
  unfold verify_model_determinism, Dataset_limit. cbn [ds_rows].
  intros Hrun ->. rewrite take_app. by apply verify_rows_false_app.
Qed.

End DeterminismMore.

(** ** More on means *)

Lemma Qcsum_nonneg (xs : list Qc) :
  Forall (λ q, (0 ≤ q)%Qc) xs → (0 ≤ Qcsum xs)%Qc.
Proof.
  induction 1 as [|x xs Hx _ IH]; cbn [Qcsum foldr]; [apply Qcle_refl|].
  by apply Qcplus_nonneg_nonneg.
Qed.

Lemma Qcsum_zero_iff (xs : list Qc) :
  Forall (λ q, (0 ≤ q)%Qc) xs → Qcsum xs = 0%Qc ↔ Forall (λ q, q = 0%Qc) xs.
Proof.
  induction 1 as [|x xs Hx Hxs IH]; cbn [Qcsum foldr]; [split; [constructor|done]|].
  split.
  - intros Hsum. pose proof (Qcsum_nonneg xs Hxs) as Hs.
    assert (x ≤ 0)%Qc as Hx0.
    { rewrite <- Hsum. replace x with (x + 0)%Qc at 1 by ring.
      by apply Qcplus_le_mono_l. }
    assert (x = 0%Qc) as -> by (by apply Qcle_antisym).
    constructor; [done|]. apply IH.
    replace (Qcsum xs) with (0 + Qcsum xs)%Qc by ring. exact Hsum.
  - intros [-> Hrest]%Forall_cons. apply IH in Hrest. fold (Qcsum xs).
    rewrite Hrest. ring.
Qed.

Lemma Qcsum_at_least (c : Qc) (xs : list Qc) :
  Forall (λ q, (c ≤ q)%Qc) xs → (c * py_len xs ≤ Qcsum xs)%Qc.
Proof.
  induction 1 as [|x xs Hx _ IH].
  - rewrite py_len_nil. cbn [Qcsum foldr].
    replace (c * 0)%Qc with 0%Qc by ring. apply Qcle_refl.
  - rewrite py_len_cons. cbn [Qcsum foldr].
    replace (c * (1 + py_len xs))%Qc with (c + c * py_len xs)%Qc by ring.
    by apply Qcplus_le_compat.
Qed.

Lemma Qcsum_at_most (c : Qc) (xs : list Qc) :
  Forall (λ q, (q ≤ c)%Qc) xs → (Qcsum xs ≤ c * py_len xs)%Qc.
Proof.
  induction 1 as [|x xs Hx _ IH].
  - rewrite py_len_nil. cbn [Qcsum foldr].
    replace (c * 0)%Qc with 0%Qc by ring. apply Qcle_refl.
  - rewrite py_len_cons. cbn [Qcsum foldr].
    replace (c * (1 + py_len xs))%Qc with (c + c * py_len xs)%Qc by ring.
    by apply Qcplus_le_compat.
Qed.

Lemma arithmetic_mean_at_least (c : Qc) (xs : list Qc) :
  xs ≠ [] → Forall (λ q, (c ≤ q)%Qc) xs → (c ≤ arithmetic_mean xs)%Qc.
Proof.
  intros Hne Hall.
  apply (Qcmult_lt_0_le_reg_r _ _ (py_len xs)); [by apply py_len_pos|].
  rewrite arithmetic_mean_times_len by done. by apply Qcsum_at_least.
Qed.

Lemma arithmetic_mean_at_most (c : Qc) (xs : list Qc) :
  xs ≠ [] → Forall (λ q, (q ≤ c)%Qc) xs → (arithmetic_mean xs ≤ c)%Qc.
Proof.
  intros Hne Hall.
  apply (Qcmult_lt_0_le_reg_r _ _ (py_len xs)); [by apply py_len_pos|].
  rewrite arithmetic_mean_times_len by done. by apply Qcsum_at_most.
Qed.

Lemma arithmetic_mean_zero_iff (xs : list Qc) :
  xs ≠ [] → arithmetic_mean xs = 0%Qc ↔ Qcsum xs = 0%Qc.
Proof.
  intros Hne. split.
  - intros Hmean. rewrite <- (arithmetic_mean_times_len xs Hne), Hmean. ring.
  - intros Hsum. unfold arithmetic_mean. rewrite Hsum.
    unfold Qcdiv. ring.
Qed.

Lemma Qcabs_diff_zero_iff (x y : Qc) : Qcabs (x - y)%Qc = 0%Qc ↔ y = x.
Proof.
  split.
  - intros Hz%Qcabs_null. replace x with ((x - y) + y)%Qc by ring.
    rewrite Hz. ring.
  - intros ->. replace (x - x)%Qc with 0%Qc by ring.
    apply Qcabs_pos, Qcle_refl.
Qed.

(** X14. The mean delta of a non-empty list of perturbed scores is never
    negative, and it is zero when every perturbed score has the value of the
    original one (the names of the scores play no part). *)
Theorem generate_mean_delta_score_bounds (original_score : EvalScore.t)
    (perturbed_input_scores : list EvalScore.t) :
  perturbed_input_scores ≠ [] →
  ∃ m,
    generate_mean_delta_score original_score perturbed_input_scores = Ok m ∧
    (0 ≤ m)%Qc ∧
    (Forall (λ p, EvalScore.value p = EvalScore.value original_score)
            perturbed_input_scores → m = 0%Qc).
Proof.
  intros Hne.
  set (deltas := map (λ p, Qcabs (EvalScore.value original_score - EvalScore.value p)%Qc)
                     perturbed_input_scores).
  assert (deltas ≠ []) as Hdne.
  { subst deltas. by destruct perturbed_input_scores. }
  assert (Forall (λ q, (0 ≤ q)%Qc) deltas) as Hnonneg.
  { subst deltas. apply Forall_fmap, Forall_true. intros p. apply Qcabs_nonneg. }
  exists (arithmetic_mean deltas). split_and!.
  - unfold generate_mean_delta_score. rewrite py_truediv_len by done.
    unfold arithmetic_mean. fold deltas. rewrite py_sum_Qcsum.
    subst deltas. unfold py_len. by rewrite length_map.
  - by apply arithmetic_mean_at_least.
  - intros Hsame. rewrite arithmetic_mean_zero_iff, Qcsum_zero_iff by done.
    subst deltas. rewrite Forall_fmap. eapply Forall_impl; [exact Hsame|].
    cbn beta. intros p Hp. by apply Qcabs_diff_zero_iff.
Qed.

(** ** More on aggregation *)

Section AggregationMore.
Variable MEAN : string.
Variable unique_order : list pyval → list pyval.
Variable groupby_order : list pyval → list pyval.
Hypothesis unique_order_perm : ∀ l, unique_order l ≡ₚ l.
Hypothesis groupby_order_perm : ∀ l, groupby_order l ≡ₚ l.

(** X15. An aggregation method other than the mean is refused as soon as
    there is a score column to aggregate: whatever the dataset holds, the
    internal error naming the method is raised. *)
Theorem aggregate_evaluation_scores_unsupported (dataset : Dataset)
    (score_column_name : string) (score_column_names : list string)
    (agg_method : string) :
  agg_method ≠ MEAN →
  aggregate_evaluation_scores MEAN unique_order groupby_order
      dataset (score_column_name :: score_column_names) agg_method
    = Raise (EvalAlgorithmInternalError
               ("Aggregation method " +:+ agg_method +:+ " is not supported")).
Proof.
  intros Hne%String.eqb_neq. unfold aggregate_evaluation_scores.
  cbn [for_each]. unfold dataset_aggregation. by rewrite Hne.
Qed.

End AggregationMore.

(** ** More on the transforms *)

Section TransformMore.
Variable mean_no_keys_msg : string.
Variable wer_compute : list pyval → list pyval → pyval.

Lemma validate_call_Ok_inv {A} (name : string) (keys : list string)
    (call : record → result A) (r : record) (a : A) :
  validate_call name keys call r = Ok a →
  Forall (λ key, is_Some (r !! key)) keys ∧ call r = Ok a.
Proof.
  unfold validate_call.
  destruct (List.find _ keys) as [k|] eqn:Hfind; [done|]. intros Hcall. split; [|done].
  apply Forall_forall. intros key Hin%list_elem_of_In.
  pose proof (find_none _ _ Hfind _ Hin) as Hb. apply bool_decide_eq_false in Hb.
  by destruct (r !! key).
Qed.

Lemma getitem_values_inv (r : record) (keys : list string) (vs : list pyval) :
  for_each (record_getitem r) keys = Ok vs →
  Forall2 (λ key v, r !! key = Some v) keys vs.
Proof.
  intros H%for_each_Ok_inv. eapply Forall2_impl; [exact H|].
  intros key v. unfold record_getitem. destruct (r !! key); [by intros [= ->]|done].
Qed.

(** X17. A WER transform that was built by its initializer and whose call
    returns has read every declared key from the record, has called the
    external metric once, with as many predictions as references (one per
    prediction key), and has changed the record at the output key only. *)
Theorem WER_init_call (pkeys rkeys : list string)
    (output_key : string) (self : WER) (r r' : record) (calls : list wer_invocation) :
  WER_init pkeys rkeys output_key = Ok self →
  WER_call wer_compute self r = Ok (r', calls) →
  ∃ preds refs,
    calls = [mkInvocation preds refs] ∧
    Forall2 (λ key v, r !! key = Some v) pkeys preds ∧
    Forall2 (λ key v, r !! key = Some v) rkeys refs ∧
    length preds = length refs ∧
    r' = <[output_key := wer_compute preds refs]> r.
Proof.
  unfold WER_init.
  destruct (Nat.eqb_spec (length pkeys) (length rkeys)) as [Hlen|];
    [|done].
  cbn. intros [= <-]. unfold WER_call. cbn [prediction_keys reference_keys wer_output_key].
  intros [_ Hcall]%validate_call_Ok_inv.
  destruct (for_each (record_getitem r) pkeys) as [preds|] eqn:Hp; [|done].
  rewrite bind_Ok in Hcall.
  destruct (for_each (record_getitem r) rkeys) as [refs|] eqn:Hr; [|done].
  rewrite bind_Ok in Hcall. injection Hcall as <- <-.
  apply getitem_values_inv in Hp, Hr.
  exists preds, refs. split_and!; [done|done|done| |done].
  by rewrite <- (Forall2_length _ _ _ Hp), <- (Forall2_length _ _ _ Hr).
Qed.

Lemma BertScoreDissimilarity_call_numbers (self : BertScoreDissimilarity) (r : record)
    (values : list Qc) :
  bert_score_keys self ≠ [] →
  Forall2 (λ key q, r !! key = Some (VNum q)) (bert_score_keys self) values →
  BertScoreDissimilarity_call mean_no_keys_msg self r
    = Ok (<[bsd_output_key self := VNum (1 - arithmetic_mean values)%Qc]> r).
Proof.
  intros Hne Hvals. unfold BertScoreDissimilarity_call.
  rewrite validate_call_present by exact (Forall2_present r _ values VNum Hvals).
  unfold Mean_init. rewrite bool_decide_eq_false_2 by done. cbn.
  rewrite (Mean_call_numbers _ r values) by done. cbn.
  unfold record_getitem. rewrite lookup_insert_eq. cbn.
  by rewrite insert_insert_eq.
Qed.

(** X18. BERTScore values between 0 and 1 give a dissimilarity between 0
    and 1: the output of the transform stays in the range of its inputs. *)
Theorem BertScoreDissimilarity_in_range (self : BertScoreDissimilarity) (r : record)
    (values : list Qc) :
  bert_score_keys self ≠ [] →
  Forall2 (λ key q, r !! key = Some (VNum q)) (bert_score_keys self) values →
  Forall (λ q, (0 ≤ q)%Qc ∧ (q ≤ 1)%Qc) values →
  ∃ out,
    BertScoreDissimilarity_call mean_no_keys_msg self r
      = Ok (<[bsd_output_key self := VNum out]> r) ∧
    (0 ≤ out)%Qc ∧ (out ≤ 1)%Qc.
Proof.
  intros Hne Hvals Hrange.
  assert (values ≠ []) as Hvne.
  { intros ->. apply Forall2_nil_inv_r in Hvals. done. }
  assert (0 ≤ arithmetic_mean values)%Qc as Hlow.
  { apply arithmetic_mean_at_least; [done|].
    eapply Forall_impl; [exact Hrange|]. by intros q [? _]. }
  assert (arithmetic_mean values ≤ 1)%Qc as Hhigh.
  { apply arithmetic_mean_at_most; [done|].
    eapply Forall_impl; [exact Hrange|]. by intros q [_ ?]. }
  exists (1 - arithmetic_mean values)%Qc. split_and!.
  - by apply BertScoreDissimilarity_call_numbers.
  - apply Qcle_minus_iff in Hhigh. by replace (1 - arithmetic_mean values)%Qc
      with (1 + - arithmetic_mean values)%Qc by ring.
  - apply Qcle_minus_iff.
    replace (1 + - (1 - arithmetic_mean values))%Qc with (arithmetic_mean values) by ring.
    done.
Qed.

End TransformMore.

(** ** Prompts and inference *)

Section PyDictStore.
Context {K V : Type} `{EqDecision K}.
Implicit Types (d : pydict K V) (key : K) (v : V).

Lemma dict_get_set_eq key v d : dict_get key (dict_set key v d) = Some v.
Proof.
  induction d as [|[k w] d IH]; cbn [dict_set dict_get].
  - by rewrite decide_True.
  - destruct (decide (k = key)) as [->|Hne]; cbn [dict_get].
    + by rewrite decide_True.
    + by rewrite decide_False.
Qed.

Lemma dict_get_set_ne key key' v d :
  key ≠ key' → dict_get key' (dict_set key v d) = dict_get key' d.
Proof.
  intros Hne. induction d as [|[k w] d IH]; cbn [dict_set dict_get].
  - by rewrite decide_False.
  - destruct (decide (k = key)) as [->|Hk]; cbn [dict_get].
    + by rewrite !decide_False.
    + by rewrite IH.
Qed.

End PyDictStore.

Section InferenceMore.
Variable model_state : Type.
Variable predict :
  model_state → pyval → (option string * option Qc) * model_state.
Variable compose : string → pyval → result pyval.

(** X19. One call of the inference wrapper on a row that has the input
    column sends that column's value to the model once and stores the
    answer: the log probability under the log-probability column, the output
    under the output column (unless both names are the same, when the log
    probability wins), and nothing else in the row changes.  A column name
    that is [None] or empty is not written; with both names so, the row
    comes back unchanged although the model has been called. *)
Theorem ModelRunnerWrapper_call_spec (model_input_column_name : string)
    (model_output_column_name model_log_probability_column_name : option string)
    (model_runner : model_state) (row : pydict string pyval) (prompt : pyval) :
  dict_get model_input_column_name row = Some prompt →
  let answer := (predict model_runner prompt).1 in
  ∃ row',
    ModelRunnerWrapper_call model_state predict model_input_column_name
        model_output_column_name model_log_probability_column_name model_runner row
      = Ok (row', (predict model_runner prompt).2) ∧
    (∀ name, truthy_name model_log_probability_column_name = Some name →
       dict_get name row' = Some (log_probability_value answer.2)) ∧
    (∀ name, truthy_name model_output_column_name = Some name →
       truthy_name model_log_probability_column_name ≠ Some name →
       dict_get name row' = Some (output_value answer.1)) ∧
    (∀ key, truthy_name model_output_column_name ≠ Some key →
       truthy_name model_log_probability_column_name ≠ Some key →
       dict_get key row' = dict_get key row) ∧
    (truthy_name model_output_column_name = None →
     truthy_name model_log_probability_column_name = None → row' = row).
Proof.
  intros Hprompt answer. unfold ModelRunnerWrapper_call, row_getitem.
  rewrite Hprompt, bind_Ok. subst answer.
  destruct (predict model_runner prompt) as [[output log_probability] model'].
  cbn [fst snd].
  destruct (truthy_name model_output_column_name) as [out|],
           (truthy_name model_log_probability_column_name) as [lp|];
    eexists; (split; [reflexivity|]); split_and!; try done.
  - intros name [= ->]. apply dict_get_set_eq.
  - intros name [= ->] Hne. rewrite dict_get_set_ne by congruence. apply dict_get_set_eq.
  - intros key Hout Hlp. rewrite !dict_get_set_ne by congruence. done.
  - intros name [= ->] _. apply dict_get_set_eq.
  - intros key Hout _. rewrite dict_get_set_ne by congruence. done.
  - intros name [= ->]. apply dict_get_set_eq.
  - intros key _ Hlp. rewrite dict_get_set_ne by congruence. done.
Qed.

(** Without the input column the wrapper raises [KeyError] before the
    model is called. *)
Lemma ModelRunnerWrapper_call_missing_input (model_input_column_name : string)
    (model_output_column_name model_log_probability_column_name : option string)
    (model_runner : model_state) (row : pydict string pyval) :
  dict_get model_input_column_name row = None →
  ModelRunnerWrapper_call model_state predict model_input_column_name
      model_output_column_name model_log_probability_column_name model_runner row
    = Raise (KeyError (VStr model_input_column_name)).
Proof.
  intros Hmissing. unfold ModelRunnerWrapper_call, row_getitem. by rewrite Hmissing.
Qed.

(** X20. [generate_prompt_column_for_dataset] returns exactly when every
    row has the model-input column and the composer accepts its value; the
    rows then come back in the same number and order, each with the composed
    prompt stored under the prompt column and every other column as it
    was. *)
Theorem generate_prompt_column_for_dataset_spec (prompt_template : string)
    (data : Dataset) (model_input_column_name prompt_column_name : string)
    (rows' : list (pydict string pyval)) :
  generate_prompt_column_for_dataset compose prompt_template data
      model_input_column_name prompt_column_name = Ok rows'
  ↔ Forall2 (λ row row',
               ∃ model_input prompt,
                 dict_get model_input_column_name row = Some model_input ∧
                 compose prompt_template model_input = Ok prompt ∧
                 row' = dict_set prompt_column_name prompt row ∧
                 dict_get prompt_column_name row' = Some prompt ∧
                 ∀ key, key ≠ prompt_column_name → dict_get key row' = dict_get key row)
            (ds_rows data) rows'.
Proof.
  unfold generate_prompt_column_for_dataset. split.
  - intros H%for_each_Ok_inv. eapply Forall2_impl; [exact H|].
    intros row row'. unfold _generate_prompt_column, row_getitem.
    destruct (dict_get model_input_column_name row) as [model_input|] eqn:Hin; [|done].
    rewrite bind_Ok.
    destruct (compose prompt_template model_input) as [prompt|] eqn:Hcompose; [|done].
    rewrite bind_Ok. intros [= <-]. exists model_input, prompt.
    split_and!; [done|done|done|apply dict_get_set_eq|].
    intros key Hkey. by apply dict_get_set_ne.
  - intros H. apply for_each_Ok. eapply Forall2_impl; [exact H|].
    intros row row' (model_input & prompt & Hin & Hcompose & -> & _).
    unfold _generate_prompt_column, row_getitem. by rewrite Hin, bind_Ok, Hcompose.
Qed.

(** X21. Composing a prompt for a row and then running inference with the
    prompt column as input sends the composed prompt -- not the raw model
    input -- to the model, and the resulting row holds both the prompt and
    the model's output for it. *)
Theorem prompt_then_inference (prompt_template : string)
    (model_input_column_name prompt_column_name output_column_name : string)
    (model_runner : model_state) (row : pydict string pyval)
    (model_input prompt : pyval) :
  output_column_name ≠ "" →
  dict_get model_input_column_name row = Some model_input →
  compose prompt_template model_input = Ok prompt →
  let answer := (predict model_runner prompt).1 in
  ∃ row',
    _generate_prompt_column compose prompt_template
        model_input_column_name prompt_column_name row
    ≫= ModelRunnerWrapper_call model_state predict prompt_column_name
          (Some output_column_name) None model_runner
      = Ok (row', (predict model_runner prompt).2) ∧
    dict_get output_column_name row' = Some (output_value answer.1) ∧
    (output_column_name ≠ prompt_column_name →
     dict_get prompt_column_name row' = Some prompt) ∧
    (∀ key, key ≠ prompt_column_name → key ≠ output_column_name →
       dict_get key row' = dict_get key row).
Proof.
  intros Hname Hin Hcompose answer.
  unfold _generate_prompt_column, row_getitem. rewrite Hin, bind_Ok, Hcompose, !bind_Ok.
  unfold ModelRunnerWrapper_call, row_getitem. rewrite dict_get_set_eq, bind_Ok.
  subst answer. destruct (predict model_runner prompt) as [[output lp] model'].
  assert (truthy_name (Some output_column_name) = Some output_column_name) as ->
    by (by destruct output_column_name).
  cbn [truthy_name fst snd]. eexists. split; [reflexivity|]. split_and!.
  - apply dict_get_set_eq.
  - intros Hne. rewrite dict_get_set_ne by done. apply dict_get_set_eq.
  - intros key Hp Ho. by rewrite !dict_get_set_ne.
Qed.

End InferenceMore.

(** ** Instances of the further properties *)

Lemma from_row_record_well_formed_witness :
  dict_wf [("model_input", VStr "hello")] ∧
  Forall (λ col, col ∈ example_columns ∧ (col ∉ ["rouge"; "bert_score"]))
         ["model_input"].
Proof.
  destruct (from_row_record_well_formed example_columns example_row
              ["rouge"; "bert_score"] _ from_row_docstring_example) as (Hwf & Hcols & _).
  split; [exact Hwf|exact Hcols].
Defined.

Lemma from_row_to_dict_witness :
  ∃ rec,
    from_row example_columns example_row ["rouge"; "bert_score"] = Ok rec ∧
    dict_keys (_to_dict example_columns rec) = ["model_input"; "scores"].
Proof.
  destruct (from_row_to_dict example_columns example_row ["rouge"; "bert_score"])
    as (rec & Hrec & Hkeys & _).
  - compute_done.
  - compute_done.
  - unfold dict_wf. compute_done.
  - compute_done.
  - exists rec. split; [exact Hrec|exact Hkeys].
Defined.


Lemma write_records_single_write_witness :
  write_records 5 ["a"; "b"] = "a" +:+ newline +:+ "b" ∧
  write_records 0 ["a"; "b"] = "a" +:+ newline +:+ "b".
Proof.
  split.
  - apply (write_records_single_write 5 ["a"; "b"]). right. cbn. lia.
  - apply (write_records_single_write 0 ["a"; "b"]). by left.
Defined.

Lemma jsonl_path_bare_goes_to_root_witness :
  jsonl_path "eval_output.json" = "/eval_output.jsonl".
Proof.
  destruct (jsonl_path_bare_goes_to_root "eval_output.json") as (_ & Hpath & _).
  - reflexivity.
  - exact Hpath.
Defined.

Lemma generate_output_dataset_path_saved_witness :
  generate_output_dataset_path "/tmp/eval_results/" "accuracy" "trex"
    = "/tmp/eval_results/accuracy_trex.jsonl" ∧
  jsonl_path "/tmp/eval_results/accuracy_trex.jsonl"
    = "/tmp/eval_results/accuracy_trex.jsonl".
Proof.
  destruct (generate_output_dataset_path_saved "/tmp/eval_results" "accuracy" "trex")
    as (_ & Hslash & Hsaved & _).
  - discriminate.
  - reflexivity.
  - reflexivity.
  - reflexivity.
  - split; [exact Hslash|exact Hsaved].
Defined.

Lemma verify_model_determinism_deterministic_witness :
  verify_model_determinism 3 nat example_constant_predict 0
      example_prompt_dataset "prompt"
    = Ok (true, [VStr "p1"; VStr "p1"; VStr "p2"; VStr "p2"; VStr "p3"; VStr "p3"],
          6%nat).
Proof.
  destruct (verify_model_determinism_deterministic 3 nat example_constant_predict 0
              example_prompt_dataset "prompt" [VStr "p1"; VStr "p2"; VStr "p3"])
    as [Hrun _].
  - reflexivity.
  - reflexivity.
  - exact Hrun.
Defined.

Lemma verify_model_determinism_missing_prompt_witness :
  verify_model_determinism 3 nat example_constant_predict 0
      (mkDataset (Some ["prompt"]) [[("prompt", VStr "p1")]; [("input", VStr "p2")]]) "prompt"
    = Raise (KeyError (VStr "prompt")).
Proof.
  apply (verify_model_determinism_missing_prompt 3 nat example_constant_predict 0
           (mkDataset (Some ["prompt"]) [[("prompt", VStr "p1")]; [("input", VStr "p2")]])
           "prompt" [[("prompt", VStr "p1")]] [] [("input", VStr "p2")] [VStr "p1"]).
  - reflexivity.
  - cbn. lia.
  - reflexivity.
  - repeat constructor.
  - reflexivity.
Defined.

Lemma verify_model_determinism_stops_witness :
  verify_model_determinism 3 nat example_predict 0
      (mkDataset (Some ["prompt"])
         [[("prompt", VStr "p1")]; [("prompt", VStr "p2")]; [("input", VStr "p3")]])
      "prompt"
    = Ok (false, [VStr "p1"; VStr "p1"; VStr "p2"; VStr "p2"], 4%nat).
Proof.
  apply (verify_model_determinism_stops 3 nat example_predict 0 4%nat
           (mkDataset (Some ["prompt"]) [[("prompt", VStr "p1")]; [("prompt", VStr "p2")]])
           _ "prompt" _ [[("input", VStr "p3")]]).
  - reflexivity.
  - reflexivity.
Defined.

Lemma generate_mean_delta_score_bounds_witness :
  ∃ m,
    generate_mean_delta_score (EvalScore.mk "acc" 1%Qc)
        [EvalScore.mk "acc" (Q2Qc 0.5); EvalScore.mk "acc" (Q2Qc 1.5)] = Ok m ∧
    (0 ≤ m)%Qc.
Proof.
  destruct (generate_mean_delta_score_bounds (EvalScore.mk "acc" 1%Qc)
              [EvalScore.mk "acc" (Q2Qc 0.5); EvalScore.mk "acc" (Q2Qc 1.5)])
    as (m & Hm & Hnonneg & _).
  - discriminate.
  - exists m. split; [exact Hm|exact Hnonneg].
Defined.

Lemma aggregate_evaluation_scores_unsupported_witness :
  aggregate_evaluation_scores "mean" (λ l, l) (λ l, l) example_scored_dataset
      ["rouge"] "median"
    = Raise (EvalAlgorithmInternalError "Aggregation method median is not supported").
Proof.
  apply (aggregate_evaluation_scores_unsupported "mean" (λ l, l) (λ l, l)
           example_scored_dataset "rouge" [] "median").
  discriminate.
Defined.

Lemma WER_init_call_witness :
  ∃ preds refs,
    [mkInvocation [VStr "a"; VStr "b"; VStr "c"] [VStr "d"; VStr "e"; VStr "f"]]
      = [mkInvocation preds refs] ∧
    length preds = length refs.
Proof.
  destruct (WER_init_call example_wer_metric ["p1"; "p2"; "p3"] ["r1"; "r2"; "r3"] "wer"
              (mkWER ["p1"; "p2"; "p3"] ["r1"; "r2"; "r3"] "wer")
              example_wer_record
              (<["wer" := VNum (Q2Qc 0.123)]> example_wer_record)
              [mkInvocation [VStr "a"; VStr "b"; VStr "c"] [VStr "d"; VStr "e"; VStr "f"]])
    as (preds & refs & Hcalls & _ & _ & Hlen & _).
  - reflexivity.
  - reflexivity.
  - by exists preds, refs.
Defined.

Lemma BertScoreDissimilarity_in_range_witness :
  ∃ out,
    BertScoreDissimilarity_call "" (mkBertScoreDissimilarity ["a"; "b"] "bsd")
        (list_to_map [("a", VNum (Q2Qc 0.25)); ("b", VNum (Q2Qc 0.75))])
      = Ok (<["bsd" := VNum out]>
              (list_to_map [("a", VNum (Q2Qc 0.25)); ("b", VNum (Q2Qc 0.75))])) ∧
    (0 ≤ out)%Qc ∧ (out ≤ 1)%Qc.
Proof.
  apply (BertScoreDissimilarity_in_range "" (mkBertScoreDissimilarity ["a"; "b"] "bsd")
           (list_to_map [("a", VNum (Q2Qc 0.25)); ("b", VNum (Q2Qc 0.75))])
           [Q2Qc 0.25; Q2Qc 0.75]).
  - discriminate.
  - repeat constructor.
  - repeat constructor; discriminate.
Defined.

Lemma ModelRunnerWrapper_call_spec_witness :
  ∃ row',
    ModelRunnerWrapper_call nat example_constant_predict "prompt"
        (Some "model_output") (Some "") 0 [("prompt", VStr "p1")]
      = Ok (row', 1%nat) ∧
    dict_get "model_output" row' = Some (VStr "x") ∧
    dict_get "prompt" row' = Some (VStr "p1").
Proof.
  destruct (ModelRunnerWrapper_call_spec nat example_constant_predict "prompt"
              (Some "model_output") (Some "") 0 [("prompt", VStr "p1")] (VStr "p1"))
    as (row' & Hcall & _ & Hout & Hframe & _).
  - reflexivity.
  - exists row'. split_and!.
    + exact Hcall.
    + apply Hout; [reflexivity|discriminate].
    + rewrite Hframe; [reflexivity|discriminate|discriminate].
Defined.

Lemma prompt_then_inference_witness :
  ∃ row',
    _generate_prompt_column example_compose "Summarize: " "model_input" "prompt"
        [("model_input", VStr "text")]
    ≫= ModelRunnerWrapper_call nat example_constant_predict "prompt"
          (Some "model_output") None 0
      = Ok (row', 1%nat) ∧
    dict_get "model_output" row' = Some (VStr "x") ∧
    dict_get "prompt" row' = Some (VStr "Summarize: text").
Proof.
  destruct (prompt_then_inference nat example_constant_predict example_compose
              "Summarize: " "model_input" "prompt" "model_output" 0
              [("model_input", VStr "text")] (VStr "text") (VStr "Summarize: text"))
    as (row' & Hrun & Hout & Hprompt & _).
  - discriminate.
  - reflexivity.
  - reflexivity.
  - exists row'. split_and!; [exact Hrun|exact Hout|].
    apply Hprompt. discriminate.
Defined.
